(** * OTRadValve::ModelledRadValveState — the modelled radiator valve controller

    A shallow embedding of [OTRadValve_ModelledRadValve.cpp]: the per-minute
    [tick] routine, the temperature filter and the valve position computation
    [computeRequiredTRVPercentOpen], followed by the properties of the
    controller.

    Conventions.
    - C [int] values (temperatures in C/16) are [Z]; the source assumes that
      "values and sum will be nowhere near the limits", so no wrap-around is
      applied to them.
    - [uint8_t] results of [int] arithmetic are reduced with [u8]
      (modulo 256), [int8_t] ones with [i8].
    - The fixed-size array [prevRawTempC16] is a [list Z], indexed and
      updated in place with stdpp's lookup and insert; the loops of the
      source are recursions over the loop index. *)

From Stdlib Require Import ZArith Lia Bool List.
From stdpp Require Import base list numbers gmap.

Local Open Scope Z_scope.

(** ** Machine integers and the Arduino macros *)

(** Conversion of an [int] to [uint8_t]. *)
Definition u8 (z : Z) : Z := z mod 256.

(** Conversion of an [int] to [int8_t] (two's complement wrap). *)
Definition i8 (z : Z) : Z := (z + 128) mod 256 - 128.

(** [#define constrain(amt,low,high) ((amt)<(low)?(low):((amt)>(high)?(high):(amt)))] *)
Definition constrain (amt low high : Z) : Z :=
  if amt <? low then low else if amt >? high then high else amt.

(** ** Compile-time constants of the translation unit *)

Definition refTempOffsetC16 : Z := 8.
Definition TRV_MIN_SLEW_PC : Z := 7.
Definition TRV_MIN_SLEW_PC_PER_MIN : Z := 1.
Definition TRV_MAX_SLEW_PC_PER_MIN : Z := 5.
Definition TRV_SLEW_PC_PER_MIN_VFAST : Z := Z.min 34 (4 * TRV_MAX_SLEW_PC_PER_MIN).
Definition TRV_SLEW_PC_PER_MIN_FAST : Z := Z.min 20 (2 * TRV_MAX_SLEW_PC_PER_MIN).
Definition MAX_TEMP_JUMP_C16 : Z := 3.
Definition MIN_WINDOW_OPEN_TEMP_FALL_C16 : Z := 16.
Definition MIN_WINDOW_OPEN_TEMP_FALL_M : nat := 10.
Definition ulpStep : Z := 6.

(** Constants that the source uses but which are declared in headers outside
    this translation unit.  They are taken as parameters of the model. *)
Record Constants : Type := {
  (** [OTRadValve::DEFAULT_VALVE_PC_SAFER_OPEN] *)
  DEFAULT_VALVE_PC_SAFER_OPEN : Z;
  (** [OTRadValve::DEFAULT_VALVE_PC_MODERATELY_OPEN] *)
  DEFAULT_VALVE_PC_MODERATELY_OPEN : Z;
  (** [DEFAULT_MAX_RUN_ON_TIME_M] *)
  DEFAULT_MAX_RUN_ON_TIME_M : Z;
  (** [MIN_VALVE_TARGET_C], the frost-safety floor *)
  MIN_VALVE_TARGET_C : Z;
  (** Minutes for which [valveTurnup()] defers re-closing. *)
  TURNUP_COUNTDOWN_M : Z;
  (** Minutes for which [valveTurndown()] defers re-opening. *)
  TURNDOWN_COUNTDOWN_M : Z;
  (** [ModelledRadValveState::filterLength], strictly positive *)
  filterLength : nat;
  (** The number of values of the unsigned integer type of
      [cumulativeMovementPC] (65536 for a [uint16_t]): [+=] on the field
      wraps modulo it. *)
  CUMULATIVE_MOVEMENT_MODULUS : Z
}.

(** The header constants are [uint8_t] values; the safer-open threshold and
    both anti-hunt delays are strictly positive. *)
Definition constants_ok (K : Constants) : Prop :=
  0 < DEFAULT_VALVE_PC_SAFER_OPEN K <= 255 /\
  0 <= DEFAULT_VALVE_PC_MODERATELY_OPEN K <= 255 /\
  0 <= DEFAULT_MAX_RUN_ON_TIME_M K <= 255 /\
  0 <= MIN_VALVE_TARGET_C K <= 255 /\
  0 < TURNUP_COUNTDOWN_M K <= 255 /\
  0 < TURNDOWN_COUNTDOWN_M K <= 255 /\
  (0 < filterLength K)%nat.

(** ** Data model *)

(** [ModelledRadValveInputState]: the per-tick input snapshot. *)
Record ModelledRadValveInputState : Type := {
  targetTempC : Z;
  minPCOpen : Z;
  maxPCOpen : Z;
  widenDeadband : bool;
  glacial : bool;
  hasEcoBias : bool;
  inBakeMode : bool;
  fastResponseRequired : bool;
  refTempC16 : Z
}.

(** [ModelledRadValveState]: the state kept across ticks. *)
Record ModelledRadValveState : Type := {
  initialised : bool;
  isFiltering : bool;
  valveMoved : bool;
  cumulativeMovementPC : Z;
  valveTurndownCountdownM : Z;
  valveTurnupCountdownM : Z;
  prevRawTempC16 : list Z
}.

(** The caller's obligations on a snapshot: [0 <= minPCOpen <= maxPCOpen <= 100]. *)
Definition input_ok (inp : ModelledRadValveInputState) : Prop :=
  0 <= minPCOpen inp /\ minPCOpen inp <= maxPCOpen inp /\ maxPCOpen inp <= 100.

(** ** Temperature history and filter *)

(** [{ sum += data[i]; }] run for [i - 1], [i - 2], ..., [0]: the summation
    loop of [smallIntMean] once the number of its iterations is known. *)
Fixpoint sum_loop (i : nat) (data : list Z) (sum : Z) : Z :=
  match i with
  | O => sum
  | S j => sum_loop j data (sum + data !!! j)
  end.

(** The number of times the body of [for(int8_t i = N; --i >= 0; )] runs.
    The index starts as [N] converted to [int8_t]; the first value tested is
    that minus one, again as [int8_t].  From a non-negative [j] the body
    runs for [j], [j - 1], ..., [0]; from a negative one it never runs (so
    for [N] from 129 to 255 the loop does nothing). *)
Definition int8_countdown_trips (N : nat) : nat :=
  let j := i8 (i8 (Z.of_nat N) - 1) in
  if 0 <=? j then Z.to_nat (j + 1) else O.

(** [template<size_t N> int smallIntMean(const int data[N])]: the loop index
    is an [int8_t], the division is C's, truncating towards zero. *)
Definition smallIntMean (N : nat) (data : list Z) : Z :=
  Z.quot (sum_loop (int8_countdown_trips N) data 0 + Z.of_nat (N / 2)) (Z.of_nat N).

(** [for(int i = filterLength; --i >= 0; ) { prevRawTempC16[i] = rawTempC16; }] *)
Fixpoint fill_loop (i : nat) (raw : Z) (a : list Z) : list Z :=
  match i with
  | O => a
  | S j => fill_loop j raw (<[j := raw]> a)
  end.

(** [for(int i = filterLength; --i > 0; ) { prevRawTempC16[i] = prevRawTempC16[i-1]; }] *)
Fixpoint shift_loop (i : nat) (a : list Z) : list Z :=
  match i with
  | O => a
  | S j =>
    match j with
    | O => a
    | S k => shift_loop j (<[j := a !!! k]> a)
    end
  end.

(** [for(int i = 1; i < filterLength; ++i)
      { if(abs(prev[i] - prev[i-1]) > MAX_TEMP_JUMP_C16) { isFiltering = true; break; } }]
    with [n] iterations left; the result tells whether the loop set the flag. *)
Fixpoint jump_loop (n : nat) (i : nat) (a : list Z) : bool :=
  match n with
  | O => false
  | S m =>
    if Z.abs (a !!! i - a !!! (i - 1)%nat) >? MAX_TEMP_JUMP_C16 then true
    else jump_loop m (S i) a
  end.

Section Controller.

Variable K : Constants.

(** [int ModelledRadValveState::getSmoothedRecent() const] *)
Definition getSmoothedRecent (s : ModelledRadValveState) : Z :=
  smallIntMean (filterLength K) (prevRawTempC16 s).

(** Modelled from the spec: [getRawDelta()] is declared in the missing header;
    it is "the most recent single-step raw delta" of the most-recent-first
    history, positive when the temperature is rising. *)
Definition getRawDelta (s : ModelledRadValveState) : Z :=
  prevRawTempC16 s !!! 0%nat - prevRawTempC16 s !!! 1%nat.

(** Modelled from the spec: [getRawDelta(n)] is declared in the missing
    header; it is "the raw delta over the last n ticks", the look-back being
    limited to the oldest entry that the history holds. *)
Definition getRawDeltaN (n : nat) (s : ModelledRadValveState) : Z :=
  prevRawTempC16 s !!! 0%nat - prevRawTempC16 s !!! (Nat.min n (filterLength K - 1)).

(** Modelled from the spec: [dontTurnup()] and [dontTurndown()] are declared
    in the missing header; they "simply report whether the respective
    cooldown counter is still positive".  Closing arms the counter that
    defers re-opening, opening arms the one that defers re-closing. *)
Definition dontTurnup (s : ModelledRadValveState) : bool :=
  0 <? valveTurndownCountdownM s.

Definition dontTurndown (s : ModelledRadValveState) : bool :=
  0 <? valveTurnupCountdownM s.

(** Modelled from the spec: [valveTurnup()] marks flow as having been
    increased and arms the turn-down cooldown with a configuration constant. *)
Definition valveTurnup (s : ModelledRadValveState) : ModelledRadValveState :=
  {| initialised := initialised s; isFiltering := isFiltering s;
     valveMoved := valveMoved s; cumulativeMovementPC := cumulativeMovementPC s;
     valveTurndownCountdownM := valveTurndownCountdownM s;
     valveTurnupCountdownM := TURNUP_COUNTDOWN_M K;
     prevRawTempC16 := prevRawTempC16 s |}.

(** Modelled from the spec: [valveTurndown()] marks flow as having been
    reduced and arms the turn-up cooldown with a configuration constant. *)
Definition valveTurndown (s : ModelledRadValveState) : ModelledRadValveState :=
  {| initialised := initialised s; isFiltering := isFiltering s;
     valveMoved := valveMoved s; cumulativeMovementPC := cumulativeMovementPC s;
     valveTurndownCountdownM := TURNDOWN_COUNTDOWN_M K;
     valveTurnupCountdownM := valveTurnupCountdownM s;
     prevRawTempC16 := prevRawTempC16 s |}.

(** ** The valve position computation *)

(** [const int adjustedTempC16 =
       isFiltering ? (getSmoothedRecent() + refTempOffsetC16) : inputState.refTempC16;] *)
Definition adjustedTempC16 (s : ModelledRadValveState)
    (inp : ModelledRadValveInputState) : Z :=
  if isFiltering s then getSmoothedRecent s + refTempOffsetC16 else refTempC16 inp.

(** [const int8_t adjustedTempC = (adjustedTempC16 >> 4);] *)
Definition adjustedTempC (s : ModelledRadValveState)
    (inp : ModelledRadValveInputState) : Z :=
  i8 (Z.shiftr (adjustedTempC16 s inp) 4).

(** The condition of the 'window open' response (TODO-621). *)
Definition windowOpenGuard (s : ModelledRadValveState)
    (inp : ModelledRadValveInputState) : bool :=
  hasEcoBias inp &&
  (MIN_VALVE_TARGET_C K <? adjustedTempC s inp) &&
  (getRawDelta s <? 0) &&
  (getRawDeltaN MIN_WINDOW_OPEN_TEMP_FALL_M s <=? - MIN_WINDOW_OPEN_TEMP_FALL_C16).

(** The body of [if(adjustedTempC < inputState.targetTempC)]. *)
Definition underTarget (s : ModelledRadValveState) (valvePCOpen : Z)
    (inp : ModelledRadValveInputState) : Z :=
  if inBakeMode inp then maxPCOpen inp else
  if windowOpenGuard s inp then
    if negb (dontTurndown s) then
      if DEFAULT_VALVE_PC_SAFER_OPEN K <=? valvePCOpen
      then u8 (DEFAULT_VALVE_PC_SAFER_OPEN K - 1)
      else if TRV_MAX_SLEW_PC_PER_MIN <? valvePCOpen
      then u8 (valvePCOpen - TRV_MAX_SLEW_PC_PER_MIN)
      else 0
    else valvePCOpen
  else
  if valvePCOpen <? maxPCOpen inp then
    if dontTurnup s then valvePCOpen else
    let vBelowTarget := adjustedTempC s inp <? targetTempC inp - 1 in
    let beGlacial :=
      glacial inp ||
      ((minPCOpen inp <=? valvePCOpen) && widenDeadband inp &&
       negb (fastResponseRequired inp) &&
       ((hasEcoBias inp && negb vBelowTarget) ||
        (isFiltering s && (0 <? getRawDelta s)))) in
    if beGlacial then u8 (valvePCOpen + 1) else
    let cappedModeratelyOpen :=
      u8 (Z.min (maxPCOpen inp)
            (Z.min 99 (DEFAULT_VALVE_PC_MODERATELY_OPEN K + TRV_SLEW_PC_PER_MIN_FAST))) in
    if (valvePCOpen <? cappedModeratelyOpen) &&
       (fastResponseRequired inp || (vBelowTarget && negb (widenDeadband inp)))
    then cappedModeratelyOpen else
    let slewRate :=
      u8 (if (DEFAULT_VALVE_PC_MODERATELY_OPEN K <? valvePCOpen) ||
             negb (widenDeadband inp)
          then TRV_MAX_SLEW_PC_PER_MIN else TRV_SLEW_PC_PER_MIN_VFAST) in
    let minOpenFromCold := u8 (Z.max slewRate (minPCOpen inp)) in
    if valvePCOpen <? minOpenFromCold then minOpenFromCold else
    Z.min (u8 (valvePCOpen + slewRate)) (maxPCOpen inp)
  else maxPCOpen inp.

(** The body of [if(adjustedTempC > inputState.targetTempC)]. *)
Definition overTarget (s : ModelledRadValveState) (valvePCOpen : Z)
    (inp : ModelledRadValveInputState) : Z :=
  if negb (valvePCOpen =? 0) then
    if dontTurndown s then valvePCOpen else
    let justOverTemp := adjustedTempC s inp =? targetTempC inp + 1 in
    if justOverTemp && widenDeadband inp && (getRawDelta s <? 0) then valvePCOpen else
    if justOverTemp && isFiltering s then u8 (valvePCOpen - 1) else
    let minReallyOpen := minPCOpen inp in
    let lingerThreshold := u8 (if 0 <? minReallyOpen then minReallyOpen - 1 else 0) in
    if valvePCOpen <? minReallyOpen then
      if (DEFAULT_MAX_RUN_ON_TIME_M K <? minReallyOpen) &&
         (valvePCOpen <? minReallyOpen - DEFAULT_MAX_RUN_ON_TIME_M K)
      then 0
      else u8 (valvePCOpen - 1)
    else
    if (negb (hasEcoBias inp) || justOverTemp || isFiltering s) &&
       negb (fastResponseRequired inp) &&
       (constrain (lingerThreshold + TRV_SLEW_PC_PER_MIN_FAST)
          TRV_SLEW_PC_PER_MIN_FAST (maxPCOpen inp) <? valvePCOpen)
    then u8 (valvePCOpen - TRV_SLEW_PC_PER_MIN_FAST)
    else lingerThreshold
  else 0.

(** [const uint8_t lsbits = (uint8_t) (adjustedTempC16 & 0xf);] *)
Definition lsbits (s : ModelledRadValveState) (inp : ModelledRadValveInputState) : Z :=
  u8 (Z.land (adjustedTempC16 s inp) 15).

(** [targetPO]: the proportional target,
    [constrain(targetPORaw, inputState.minPCOpen, inputState.maxPCOpen)]. *)
Definition targetPO (s : ModelledRadValveState) (inp : ModelledRadValveInputState) : Z :=
  let tmp := u8 (16 - lsbits s inp) in
  let targetPORaw := u8 (tmp * ulpStep) in
  u8 (constrain targetPORaw (minPCOpen inp) (maxPCOpen inp)).

(** The minimum slew adjustment allowed (the deadband). *)
Definition minAbsSlew (inp : ModelledRadValveInputState) : Z :=
  let realMinUlp := u8 (1 + ulpStep) in
  let _minAbsSlew :=
    u8 (if widenDeadband inp
        then Z.max (Z.min (DEFAULT_VALVE_PC_MODERATELY_OPEN K ÷ 2)
                      (Z.max TRV_MAX_SLEW_PC_PER_MIN (2 * TRV_MIN_SLEW_PC)))
               (2 + TRV_MIN_SLEW_PC)
        else TRV_MIN_SLEW_PC) in
  Z.max realMinUlp _minAbsSlew.

(** The remainder of the function: close to (or at) the target. *)
Definition atTarget (s : ModelledRadValveState) (valvePCOpen : Z)
    (inp : ModelledRadValveInputState) : Z :=
  if negb (targetPO s inp =? valvePCOpen) then
    let tooOpen := targetPO s inp <? valvePCOpen in
    if tooOpen then
      let slew := u8 (valvePCOpen - targetPO s inp) in
      if slew <? minAbsSlew inp then valvePCOpen else
      if dontTurndown s then valvePCOpen else
      if getRawDelta s <=? 0 then valvePCOpen else
      let beGlacial :=
        glacial inp ||
        ((widenDeadband inp || isFiltering s) &&
         (valvePCOpen <=? DEFAULT_VALVE_PC_MODERATELY_OPEN K)) ||
        (lsbits s inp <? 8) in
      if beGlacial then u8 (valvePCOpen - 1) else
      if TRV_SLEW_PC_PER_MIN_FAST <? slew
      then u8 (valvePCOpen - TRV_SLEW_PC_PER_MIN_FAST)
      else targetPO s inp
    else
      if inBakeMode inp then maxPCOpen inp else
      let slew := u8 (targetPO s inp - valvePCOpen) in
      if slew <? minAbsSlew inp then valvePCOpen else
      if dontTurnup s then valvePCOpen else
      let rise := getRawDelta s in
      if 0 <? rise then valvePCOpen else
      if (if widenDeadband inp then 8 else 12) <=? lsbits s inp then valvePCOpen else
      let beGlacial :=
        glacial inp || widenDeadband inp || (8 <=? lsbits s inp) ||
        ((4 <=? lsbits s inp) && (DEFAULT_VALVE_PC_MODERATELY_OPEN K <? valvePCOpen)) in
      if beGlacial then u8 (valvePCOpen + 1) else
      let maxSlew :=
        u8 (if negb (hasEcoBias inp)
            then TRV_SLEW_PC_PER_MIN_FAST else TRV_MAX_SLEW_PC_PER_MIN) in
      if maxSlew <? slew then u8 (valvePCOpen + maxSlew) else targetPO s inp
  else valvePCOpen.

(** [uint8_t ModelledRadValveState::computeRequiredTRVPercentOpen(
       const uint8_t valvePCOpen, const ModelledRadValveInputState &inputState) const] *)
Definition computeRequiredTRVPercentOpen (s : ModelledRadValveState)
    (valvePCOpen : Z) (inp : ModelledRadValveInputState) : Z :=
  if adjustedTempC s inp <? targetTempC inp then underTarget s valvePCOpen inp
  else if targetTempC inp <? adjustedTempC s inp then overTarget s valvePCOpen inp
  else atTarget s valvePCOpen inp.

(** ** The per-minute tick *)

(** The history after the lazy initialisation and the shift-in of the
    latest raw temperature. *)
Definition tick_history (s : ModelledRadValveState)
    (inp : ModelledRadValveInputState) : list Z :=
  let rawTempC16 := refTempC16 inp - refTempOffsetC16 in
  let a := if negb (initialised s)
           then fill_loop (filterLength K) rawTempC16 (prevRawTempC16 s)
           else prevRawTempC16 s in
  <[0%nat := rawTempC16]> (shift_loop (filterLength K) a).

(** The first part of [tick]: history, filter flag and count-down timers,
    up to the call of [computeRequiredTRVPercentOpen]. *)
Definition tick_update (s : ModelledRadValveState)
    (inp : ModelledRadValveInputState) : ModelledRadValveState :=
  let rawTempC16 := refTempC16 inp - refTempOffsetC16 in
  let hist := tick_history s inp in
  let f1 :=
    if isFiltering s
    then if Z.abs (smallIntMean (filterLength K) hist - rawTempC16) <=? MAX_TEMP_JUMP_C16
         then false else true
    else false in
  let f2 := if negb f1 then jump_loop (filterLength K - 1) 1 hist else f1 in
  {| initialised := true;
     isFiltering := f2;
     valveMoved := valveMoved s;
     cumulativeMovementPC := cumulativeMovementPC s;
     valveTurndownCountdownM :=
       if 0 <? valveTurndownCountdownM s
       then valveTurndownCountdownM s - 1 else valveTurndownCountdownM s;
     valveTurnupCountdownM :=
       if 0 <? valveTurnupCountdownM s
       then valveTurnupCountdownM s - 1 else valveTurnupCountdownM s;
     prevRawTempC16 := hist |}.

(** [cumulativeMovementPC += d;] on a field of fixed width (declared in the
    missing header): the sum wraps modulo the range of its type. *)
Definition addMovement (s : ModelledRadValveState) (d : Z) : ModelledRadValveState :=
  {| initialised := initialised s; isFiltering := isFiltering s;
     valveMoved := valveMoved s;
     cumulativeMovementPC :=
       (cumulativeMovementPC s + d) mod CUMULATIVE_MOVEMENT_MODULUS K;
     valveTurndownCountdownM := valveTurndownCountdownM s;
     valveTurnupCountdownM := valveTurnupCountdownM s;
     prevRawTempC16 := prevRawTempC16 s |}.

(** [valveMoved = changed;] *)
Definition setValveMoved (s : ModelledRadValveState) (changed : bool)
    : ModelledRadValveState :=
  {| initialised := initialised s; isFiltering := isFiltering s;
     valveMoved := changed;
     cumulativeMovementPC := cumulativeMovementPC s;
     valveTurndownCountdownM := valveTurndownCountdownM s;
     valveTurnupCountdownM := valveTurnupCountdownM s;
     prevRawTempC16 := prevRawTempC16 s |}.

(** [void ModelledRadValveState::tick(volatile uint8_t &valvePCOpenRef,
       const ModelledRadValveInputState &inputState)]: the new state and the
    new content of [valvePCOpenRef]. *)
Definition tick (s : ModelledRadValveState) (valvePCOpenRef : Z)
    (inp : ModelledRadValveInputState) : ModelledRadValveState * Z :=
  let s1 := tick_update s inp in
  let newValvePC := computeRequiredTRVPercentOpen s1 valvePCOpenRef inp in
  let changed := negb (newValvePC =? valvePCOpenRef) in
  if changed then
    if valvePCOpenRef <? newValvePC
    then (setValveMoved
            (addMovement (valveTurnup s1) (newValvePC - valvePCOpenRef)) changed,
          newValvePC)
    else (setValveMoved
            (addMovement (valveTurndown s1) (valvePCOpenRef - newValvePC)) changed,
          newValvePC)
  else (setValveMoved s1 changed, valvePCOpenRef).

(** [n] successive ticks with the same input snapshot. *)
Fixpoint ticks (n : nat) (s : ModelledRadValveState) (valvePCOpenRef : Z)
    (inp : ModelledRadValveInputState) : ModelledRadValveState * Z :=
  match n with
  | O => (s, valvePCOpenRef)
  | S m => let '(s', v') := tick s valvePCOpenRef inp in ticks m s' v' inp
  end.

End Controller.

(** ** Example instances *)

(** A sample choice of the header constants, used to run the model. *)
Definition sampleK : Constants :=
  {| DEFAULT_VALVE_PC_SAFER_OPEN := 50;
     DEFAULT_VALVE_PC_MODERATELY_OPEN := 67;
     DEFAULT_MAX_RUN_ON_TIME_M := 5;
     MIN_VALVE_TARGET_C := 5;
     TURNUP_COUNTDOWN_M := 10;
     TURNDOWN_COUNTDOWN_M := 5;
     filterLength := 4;
     CUMULATIVE_MOVEMENT_MODULUS := 65536 |}.

(** Modelled from the spec: the constructor of [ModelledRadValveState] is in
    the missing header; the state it leaves is not yet initialised, not
    filtering, with both cooldown counters and the movement counter at zero.
    The filter memory, which the first tick overwrites, is zeroed here. *)
Definition initialState (K : Constants) : ModelledRadValveState :=
  {| initialised := false; isFiltering := false; valveMoved := false;
     cumulativeMovementPC := 0;
     valveTurndownCountdownM := 0; valveTurnupCountdownM := 0;
     prevRawTempC16 := replicate (filterLength K) 0 |}.

(** Snapshot and state builders for the examples. *)
Definition snapshot (target minPC maxPC : Z) (widen glac eco bake fast : bool)
    (roomTempC16 : Z) : ModelledRadValveInputState :=
  {| targetTempC := target; minPCOpen := minPC; maxPCOpen := maxPC;
     widenDeadband := widen; glacial := glac; hasEcoBias := eco;
     inBakeMode := bake; fastResponseRequired := fast;
     refTempC16 := roomTempC16 + refTempOffsetC16 |}.

Definition runningState (filtering : bool) (turndownM turnupM : Z)
    (history : list Z) : ModelledRadValveState :=
  {| initialised := true; isFiltering := filtering; valveMoved := false;
     cumulativeMovementPC := 0;
     valveTurndownCountdownM := turndownM; valveTurnupCountdownM := turnupM;
     prevRawTempC16 := history |}.

(** ** The rounding that the comment of [smallIntMean] announces *)

(** [r] is the arithmetic mean of [data] rounded to the nearest integer,
    ties rounding up: [r - 1/2 <= mean < r + 1/2]. *)
Definition is_rounded_mean (data : list Z) (r : Z) : Prop :=
  let n := Z.of_nat (length data) in
  let sum := foldr Z.add 0 data in
  2 * n * r - n <= 2 * sum < 2 * n * r + n.

(** Two adjacent entries of the history differ by more than
    [MAX_TEMP_JUMP_C16]. *)
Definition adjacent_jump (h : list Z) : Prop :=
  exists i : nat, (S i < length h)%nat /\
    Z.abs (h !!! S i - h !!! i) > MAX_TEMP_JUMP_C16.

(** The state of a controller that is not filtering and whose newest
    sample is the raw temperature of [inp]. *)
Definition settled (K : Constants) (inp : ModelledRadValveInputState)
    (s : ModelledRadValveState) : Prop :=
  initialised s = true /\ isFiltering s = false /\
  length (prevRawTempC16 s) = filterLength K /\
  prevRawTempC16 s !!! 0%nat = refTempC16 inp - refTempOffsetC16 /\
  ~ adjacent_jump (prevRawTempC16 s).

(** ** The decision without a cooldown *)



(** ** The input snapshot's own operations *)

(** [void ModelledRadValveInputState::setReferenceTemperatures(const int currentTempC16)] *)
Definition setReferenceTemperatures (inp : ModelledRadValveInputState)
    (currentTempC16 : Z) : ModelledRadValveInputState :=
  let referenceTempC16 := currentTempC16 + refTempOffsetC16 in
  {| targetTempC := targetTempC inp; minPCOpen := minPCOpen inp;
     maxPCOpen := maxPCOpen inp; widenDeadband := widenDeadband inp;
     glacial := glacial inp; hasEcoBias := hasEcoBias inp;
     inBakeMode := inBakeMode inp;
     fastResponseRequired := fastResponseRequired inp;
     refTempC16 := referenceTempC16 |}.

(** [ModelledRadValveInputState::ModelledRadValveInputState(const int realTempC16)];
    [DEFAULT_VALVE_PC_MIN_REALLY_OPEN] is declared in a header outside this
    translation unit and is taken as a parameter. *)
Definition newInputState (DEFAULT_VALVE_PC_MIN_REALLY_OPEN : Z) (realTempC16 : Z)
    : ModelledRadValveInputState :=
  setReferenceTemperatures
    {| targetTempC := 12; minPCOpen := DEFAULT_VALVE_PC_MIN_REALLY_OPEN;
       maxPCOpen := 100; widenDeadband := false; glacial := false;
       hasEcoBias := false; inBakeMode := false; fastResponseRequired := false;
       refTempC16 := 0 |}
    realTempC16.

(** ** The simple valve schedule ([OTV0P2BASE_SimpleValveSchedule.cpp]) *)

(** Conversion of an [int] to [uint_least16_t] (16 bits on the target). *)
Definition u16 (z : Z) : Z := z mod 65536.

(** [(uint_least16_t)~0], the result that stands for "no schedule". *)
Definition NO_SCHEDULE : Z := u16 (Z.lnot 0).

(** [OTV0P2BASE::MINS_PER_DAY]; the source gives the range of minutes after
    midnight as [0,1439]. *)
Definition MINS_PER_DAY : Z := 1440.

(** Values that the schedule code takes from headers outside this
    translation unit, and the on-period [onTime()] in force. *)
Record ScheduleConstants : Type := {
  MAX_SIMPLE_SCHEDULES : Z;
  SIMPLE_SCHEDULE_GRANULARITY_MINS : Z;
  PREWARM_MINS : Z;
  PREPREWARM_MINS : Z;
  V0P2BASE_EE_START_SIMPLE_SCHEDULE0_ON : Z;
  onTime : Z
}.

(** The constants are [uint8_t] values; the granularity divides the day and
    is coarse enough for a compressed time to fit one byte below the erased
    value. *)
Definition schedule_ok (C : ScheduleConstants) : Prop :=
  0 <= MAX_SIMPLE_SCHEDULES C <= 255 /\
  6 <= SIMPLE_SCHEDULE_GRANULARITY_MINS C <= 255 /\
  MINS_PER_DAY mod SIMPLE_SCHEDULE_GRANULARITY_MINS C = 0 /\
  0 <= PREWARM_MINS C <= 255 /\
  0 <= PREPREWARM_MINS C <= 255 /\
  0 <= onTime C <= 255.

(** The EEPROM: a byte per address; a cell never written reads as erased
    ([0xff]).  [eeprom_read_byte] is the AVR library's;
    [eeprom_smart_update_byte] and [eeprom_smart_erase_byte] come from
    [OTV0P2BASE_EEPROM.h] and leave the cell holding the given value,
    respectively the erased value, avoiding needless writes. *)
Definition eeprom_read_byte (ee : gmap Z Z) (p : Z) : Z := default 255 (ee !! p).

Definition eeprom_smart_update_byte (ee : gmap Z Z) (p value : Z) : gmap Z Z :=
  <[p := value]> ee.

Definition eeprom_smart_erase_byte (ee : gmap Z Z) (p : Z) : gmap Z Z :=
  <[p := 255]> ee.

(** Every programmed cell holds a byte. *)
Definition eeprom_ok (ee : gmap Z Z) : Prop :=
  forall p b, ee !! p = Some b -> 0 <= b <= 255.

Section Schedule.

Variable C : ScheduleConstants.

(** [static const uint8_t MAX_COMPRESSED_MINS_AFTER_MIDNIGHT =
      ((MINS_PER_DAY / SIMPLE_SCHEDULE_GRANULARITY_MINS) - 1);] *)
Definition MAX_COMPRESSED_MINS_AFTER_MIDNIGHT : Z :=
  u8 (MINS_PER_DAY `quot` SIMPLE_SCHEDULE_GRANULARITY_MINS C - 1).

(** [uint_least16_t SimpleValveScheduleBase::getSimpleScheduleOn(const uint8_t which)] *)
Definition getSimpleScheduleOn (ee : gmap Z Z) (which : Z) : Z :=
  if MAX_SIMPLE_SCHEDULES C <=? which then NO_SCHEDULE else
  let startMM :=
    eeprom_read_byte ee (V0P2BASE_EE_START_SIMPLE_SCHEDULE0_ON C + which) in
  if MAX_COMPRESSED_MINS_AFTER_MIDNIGHT <? startMM then NO_SCHEDULE else
  let startTime := u16 (SIMPLE_SCHEDULE_GRANULARITY_MINS C * startMM) in
  let windBackM := u8 (PREWARM_MINS C) in
  let startTime :=
    if startTime <? windBackM then u16 (startTime + MINS_PER_DAY) else startTime in
  u16 (startTime - windBackM).

(** [uint_least16_t SimpleValveScheduleBase::getSimpleScheduleOff(const uint8_t which)] *)
Definition getSimpleScheduleOff (ee : gmap Z Z) (which : Z) : Z :=
  let startMins := getSimpleScheduleOn ee which in
  if startMins =? NO_SCHEDULE then NO_SCHEDULE else
  let endTime := u16 (startMins + PREWARM_MINS C + onTime C) in
  if MINS_PER_DAY <=? endTime then u16 (endTime - MINS_PER_DAY) else endTime.

(** [bool SimpleValveScheduleBase::setSimpleSchedule(
       const uint_least16_t startMinutesSinceMidnightLT, const uint8_t which)]:
    the result and the EEPROM afterwards. *)
Definition setSimpleSchedule (ee : gmap Z Z) (startMinutesSinceMidnightLT which : Z)
    : bool * gmap Z Z :=
  if MAX_SIMPLE_SCHEDULES C <=? which then (false, ee) else
  if MINS_PER_DAY <=? startMinutesSinceMidnightLT then (false, ee) else
  let startMM :=
    u8 (startMinutesSinceMidnightLT `quot` SIMPLE_SCHEDULE_GRANULARITY_MINS C) in
  (true,
   eeprom_smart_update_byte ee (V0P2BASE_EE_START_SIMPLE_SCHEDULE0_ON C + which) startMM).

(** [void SimpleValveScheduleBase::clearSimpleSchedule(const uint8_t which)] *)
Definition clearSimpleSchedule (ee : gmap Z Z) (which : Z) : gmap Z Z :=
  if MAX_SIMPLE_SCHEDULES C <=? which then ee else
  eeprom_smart_erase_byte ee (V0P2BASE_EE_START_SIMPLE_SCHEDULE0_ON C + which).

(** [for(uint8_t which = 0; which < MAX_SIMPLE_SCHEDULES; ++which)
      { if(eeprom_read_byte(...) <= MAX_COMPRESSED_MINS_AFTER_MIDNIGHT) { return(true); } }]
    with [n] iterations left. *)
Fixpoint anySet_loop (ee : gmap Z Z) (n : nat) (which : Z) : bool :=
  match n with
  | O => false
  | S m =>
    if eeprom_read_byte ee (V0P2BASE_EE_START_SIMPLE_SCHEDULE0_ON C + which)
         <=? MAX_COMPRESSED_MINS_AFTER_MIDNIGHT
    then true
    else anySet_loop ee m (which + 1)
  end.

(** [bool SimpleValveScheduleBase::isAnySimpleScheduleSet()] *)
Definition isAnySimpleScheduleSet (ee : gmap Z Z) : bool :=
  anySet_loop ee (Z.to_nat (MAX_SIMPLE_SCHEDULES C)) 0.

(** The loop shared, word for word, by [isAnyScheduleOnWARMNow] and
    [isAnyScheduleOnWARMSoon]:
    [for(uint8_t which = 0; which < MAX_SIMPLE_SCHEDULES; ++which)
      { const uint_least16_t s = getSimpleScheduleOn(which);
        if(mm < s) { continue; }
        uint_least16_t e = getSimpleScheduleOff(which);
        if(e < s) { e += MINS_PER_DAY; }
        if(mm < e) { return(true); } }]
    with [n] iterations left. *)
Fixpoint anyOn_loop (ee : gmap Z Z) (mm : Z) (n : nat) (which : Z) : bool :=
  match n with
  | O => false
  | S m =>
    let s := getSimpleScheduleOn ee which in
    if mm <? s then anyOn_loop ee mm m (which + 1) else
    let e := getSimpleScheduleOff ee which in
    let e := if e <? s then u16 (e + MINS_PER_DAY) else e in
    if mm <? e then true else anyOn_loop ee mm m (which + 1)
  end.

(** [bool SimpleValveScheduleBase::isAnyScheduleOnWARMNow()]; the minutes
    since midnight, read from the clock, are the argument. *)
Definition isAnyScheduleOnWARMNow (ee : gmap Z Z) (minutesSinceMidnightLT : Z) : bool :=
  let mm := minutesSinceMidnightLT in
  anyOn_loop ee mm (Z.to_nat (MAX_SIMPLE_SCHEDULES C)) 0.

(** [bool SimpleValveScheduleBase::isAnyScheduleOnWARMSoon()], built
    without [UNIT_TESTS]. *)
Definition isAnyScheduleOnWARMSoon (ee : gmap Z Z) (minutesSinceMidnightLT : Z) : bool :=
  let mm0 := u16 (minutesSinceMidnightLT + PREPREWARM_MINS C) in
  let mm := if MINS_PER_DAY <=? mm0 then u16 (mm0 - MINS_PER_DAY) else mm0 in
  anyOn_loop ee mm (Z.to_nat (MAX_SIMPLE_SCHEDULES C)) 0.

End Schedule.

(** One pass of the body of that loop: whether the schedule [which] counts
    as on at minute [mm]. *)
Definition scheduleOnAt (C : ScheduleConstants) (ee : gmap Z Z) (mm which : Z) : bool :=
  let s := getSimpleScheduleOn C ee which in
  let e := getSimpleScheduleOff C ee which in
  negb (mm <? s) && (mm <? (if e <? s then u16 (e + MINS_PER_DAY) else e)).

(** A sample choice of the schedule constants: two schedules, six-minute
    granularity, half an hour of pre-warm and an hour of on-time. *)
Definition sampleSchedule : ScheduleConstants :=
  {| MAX_SIMPLE_SCHEDULES := 2;
     SIMPLE_SCHEDULE_GRANULARITY_MINS := 6;
     PREWARM_MINS := 30;
     PREPREWARM_MINS := 45;
     V0P2BASE_EE_START_SIMPLE_SCHEDULE0_ON := 8;
     onTime := 60 |}.

(** ** Case analysis over the decision tree *)

(** Turn boolean tests in the hypotheses into propositions. *)
Ltac bool_hyps :=
  repeat match goal with
  | H : _ && _ = true |- _ => apply andb_true_iff in H; destruct H
  | H : _ || _ = false |- _ => apply orb_false_iff in H; destruct H
  | H : _ && _ = false |- _ => apply andb_false_iff in H; destruct H
  | H : _ || _ = true |- _ => apply orb_true_iff in H; destruct H
  | H : negb _ = true |- _ => apply negb_true_iff in H
  | H : negb _ = false |- _ => apply negb_false_iff in H
  | H : (_ <? _) = true |- _ => apply Z.ltb_lt in H
  | H : (_ <? _) = false |- _ => apply Z.ltb_ge in H
  | H : (_ <=? _) = true |- _ => apply Z.leb_le in H
  | H : (_ <=? _) = false |- _ => apply Z.leb_gt in H
  | H : (_ =? _) = true |- _ => apply Z.eqb_eq in H
  | H : (_ =? _) = false |- _ => apply Z.eqb_neq in H
  | H : (_ >? _) = true |- _ => apply Z.gtb_lt in H
  | H : (_ >? _) = false |- _ => rewrite Z.gtb_ltb in H; apply Z.ltb_ge in H
  end.

(** Follow every branch of the conditionals. *)
Ltac case_ifs :=
  repeat match goal with
  | |- context [if ?b then _ else _] => destruct b eqn:?; cbv iota
  | H : context [if ?b then _ else _] |- _ => destruct b eqn:?; cbv iota in H
  end.

(** Drop the [uint8_t] conversions of values that are in range. *)
Ltac u8_norm :=
  repeat match goal with
  | |- context [u8 ?z] =>
    change (u8 z) with (z mod 256); rewrite (Z.mod_small z 256) by lia
  | H : context [u8 ?z] |- _ =>
    change (u8 z) with (z mod 256) in H; rewrite (Z.mod_small z 256) in H by lia
  end.

(** Likewise for the [uint_least16_t] conversions. *)
Ltac u16_norm :=
  repeat match goal with
  | |- context [u16 ?z] =>
    change (u16 z) with (z mod 65536); rewrite (Z.mod_small z 65536) by lia
  | H : context [u16 ?z] |- _ =>
    change (u16 z) with (z mod 65536) in H; rewrite (Z.mod_small z 65536) in H by lia
  end.

Ltac slew_constants :=
  change TRV_MAX_SLEW_PC_PER_MIN with 5 in *;
  change TRV_SLEW_PC_PER_MIN_VFAST with 20 in *;
  change TRV_SLEW_PC_PER_MIN_FAST with 10 in *.

Ltac decision_tree := cbv zeta; slew_constants; case_ifs; bool_hyps; u8_norm; try lia.


(** * Basic facts *)

Lemma u8_small (z : Z) : 0 <= z < 256 -> u8 z = z.
Proof. intros H. unfold u8. apply Z.mod_small. exact H. Qed.

Lemma u8_range (z : Z) : 0 <= u8 z < 256.
Proof. unfold u8. apply Z.mod_pos_bound. lia. Qed.

Lemma constrain_range (amt low high : Z) :
  low <= high -> low <= constrain amt low high <= high.
Proof.
  intros H. unfold constrain.
  destruct (Z.ltb_spec amt low); [lia|].
  destruct (Z.gtb_spec amt high); lia.
Qed.

Section Facts.

Variable K : Constants.

Lemma lsbits_range (s : ModelledRadValveState) (inp : ModelledRadValveInputState) :
  0 <= lsbits K s inp < 16.
Proof.
  unfold lsbits.
  change 15 with (Z.ones 4). rewrite Z.land_ones by lia.
  assert (0 <= adjustedTempC16 K s inp mod 2 ^ 4 < 16) by (apply Z.mod_pos_bound; lia).
  rewrite u8_small; lia.
Qed.

Lemma targetPO_range (s : ModelledRadValveState) (inp : ModelledRadValveInputState) :
  input_ok inp -> minPCOpen inp <= targetPO K s inp <= maxPCOpen inp.
Proof.
  intros (H0 & H1 & H2). unfold targetPO.
  match goal with |- context [constrain ?a ?l ?h] =>
    pose proof (constrain_range a l h H1) as Hc end.
  rewrite u8_small; lia.
Qed.

(** Whatever [tick] decides, [valvePCOpenRef] ends up holding the computed
    position. *)
Lemma tick_valve (s : ModelledRadValveState) (v : Z) (inp : ModelledRadValveInputState) :
  snd (tick K s v inp) = computeRequiredTRVPercentOpen K (tick_update K s inp) v inp.
Proof.
  unfold tick.
  destruct (Z.eqb_spec (computeRequiredTRVPercentOpen K (tick_update K s inp) v inp) v) as [E|E];
    cbn [negb].
  - cbn [snd]. congruence.
  - destruct (_ <? _); reflexivity.
Qed.

(** A tick whose computation returns the current position changes nothing
    but the [valveMoved] flag, which it clears. *)
Lemma tick_hold (s : ModelledRadValveState) (v : Z) (inp : ModelledRadValveInputState) :
  computeRequiredTRVPercentOpen K (tick_update K s inp) v inp = v ->
  tick K s v inp = (setValveMoved (tick_update K s inp) false, v).
Proof.
  intros E. unfold tick. rewrite E, Z.eqb_refl. reflexivity.
Qed.

Lemma compute_under (s : ModelledRadValveState) (v : Z) (inp : ModelledRadValveInputState) :
  adjustedTempC K s inp < targetTempC inp ->
  computeRequiredTRVPercentOpen K s v inp = underTarget K s v inp.
Proof.
  intros H. unfold computeRequiredTRVPercentOpen.
  destruct (Z.ltb_spec (adjustedTempC K s inp) (targetTempC inp)); [reflexivity | lia].
Qed.

Lemma compute_over (s : ModelledRadValveState) (v : Z) (inp : ModelledRadValveInputState) :
  targetTempC inp < adjustedTempC K s inp ->
  computeRequiredTRVPercentOpen K s v inp = overTarget K s v inp.
Proof.
  intros H. unfold computeRequiredTRVPercentOpen.
  destruct (Z.ltb_spec (adjustedTempC K s inp) (targetTempC inp)); [lia|].
  destruct (Z.ltb_spec (targetTempC inp) (adjustedTempC K s inp)); [reflexivity | lia].
Qed.

Lemma compute_at (s : ModelledRadValveState) (v : Z) (inp : ModelledRadValveInputState) :
  adjustedTempC K s inp = targetTempC inp ->
  computeRequiredTRVPercentOpen K s v inp = atTarget K s v inp.
Proof.
  intros H. unfold computeRequiredTRVPercentOpen.
  rewrite H, Z.ltb_irrefl. reflexivity.
Qed.

(** In bake mode the under-target branch returns before anything else is
    looked at. *)
Lemma underTarget_bake (s : ModelledRadValveState) (v : Z) (inp : ModelledRadValveInputState) :
  inBakeMode inp = true -> underTarget K s v inp = maxPCOpen inp.
Proof. intros H. unfold underTarget. rewrite H. reflexivity. Qed.

End Facts.

(** * Bake mode *)

(** C2 — Bake override.  With [inBakeMode] set, if the temperature used for
    control is under the target, or at the target with a proportional target
    above the current percent, one tick sets the percent to [maxPCOpen],
    whatever the cooldown counters, the filtering flag and the
    eco / wide-deadband / glacial / fast-response flags are. *)
Theorem bake_override_tick (K : Constants) (s : ModelledRadValveState) (v : Z)
    (inp : ModelledRadValveInputState) :
  inBakeMode inp = true ->
  adjustedTempC K (tick_update K s inp) inp < targetTempC inp \/
  (adjustedTempC K (tick_update K s inp) inp = targetTempC inp /\
   v < targetPO K (tick_update K s inp) inp) ->
  snd (tick K s v inp) = maxPCOpen inp.
Proof.
  intros Hbake Hzone. rewrite tick_valve.
  destruct Hzone as [Hunder | [Hat Hopen]].
  - rewrite compute_under by assumption.
    apply underTarget_bake. exact Hbake.
  - rewrite compute_at by assumption.
    unfold atTarget.
    destruct (Z.eqb_spec (targetPO K (tick_update K s inp) inp) v) as [E|E]; [lia|].
    destruct (Z.ltb_spec (targetPO K (tick_update K s inp) inp) v); [lia|].
    cbn [negb]. rewrite Hbake. reflexivity.
Qed.

(** Under target, cold room, turn-up cooldown armed, eco + wide-deadband +
    glacial all set: bake still opens the valve from 0 to 100. *)
Lemma bake_override_tick_witness :
  snd (tick sampleK (runningState true 5 0 [256; 260; 280; 300]) 0
         (snapshot 20 10 100 true true true true false 256)) = 100.
Proof.
  apply (bake_override_tick sampleK
           (runningState true 5 0 [256; 260; 280; 300]) 0
           (snapshot 20 10 100 true true true true false 256)).
  - reflexivity.
  - left. vm_compute. reflexivity.
Defined.

(** C10 — Bake mode takes priority over the window-open fast-close.  With
    [inBakeMode] set and the temperature under the target, the computation
    returns [maxPCOpen]; nothing is assumed of the window-open condition, so
    this holds when every part of it holds too. *)
Theorem bake_before_window_open (K : Constants) (s : ModelledRadValveState) (v : Z)
    (inp : ModelledRadValveInputState) :
  inBakeMode inp = true ->
  adjustedTempC K s inp < targetTempC inp ->
  computeRequiredTRVPercentOpen K s v inp = maxPCOpen inp.
Proof.
  intros Hbake Hunder.
  rewrite compute_under by assumption.
  apply underTarget_bake. exact Hbake.
Qed.

(** A falling temperature (more than 1C over the history, eco bias, above
    the frost floor, no cooldown) with the valve at 60%: the window-open
    condition holds, and bake mode still returns [maxPCOpen]. *)
Lemma bake_before_window_open_witness :
  windowOpenGuard sampleK (runningState true 0 0 [390; 400; 410; 420])
    (snapshot 30 10 100 false false true true false 390) = true /\
  computeRequiredTRVPercentOpen sampleK (runningState true 0 0 [390; 400; 410; 420]) 60
    (snapshot 30 10 100 false false true true false 390) = 100.
Proof.
  split; [vm_compute; reflexivity|].
  apply (bake_before_window_open sampleK
           (runningState true 0 0 [390; 400; 410; 420]) 60
           (snapshot 30 10 100 false false true true false 390)).
  - reflexivity.
  - vm_compute. reflexivity.
Defined.

(** * Window-open fast close *)

(** C3 — Window-open fast close.  Under target with bake mode off, eco bias
    on, the temperature above the frost-safety floor, the last raw delta
    negative and a raw fall of at least 16 C16 units over the last 10 ticks:
    if the turn-down cooldown is armed the tick holds the current percent;
    otherwise it returns the safer-open threshold minus one when the percent
    is at or above that threshold, else the percent minus the maximum normal
    slew rate when the percent exceeds that rate, else 0. *)
Theorem window_open_fast_close (K : Constants) (s : ModelledRadValveState) (v : Z)
    (inp : ModelledRadValveInputState) :
  0 < DEFAULT_VALVE_PC_SAFER_OPEN K <= 255 ->
  0 <= v <= 255 ->
  adjustedTempC K (tick_update K s inp) inp < targetTempC inp ->
  inBakeMode inp = false ->
  hasEcoBias inp = true ->
  MIN_VALVE_TARGET_C K < adjustedTempC K (tick_update K s inp) inp ->
  getRawDelta (tick_update K s inp) < 0 ->
  getRawDeltaN K MIN_WINDOW_OPEN_TEMP_FALL_M (tick_update K s inp)
    <= - MIN_WINDOW_OPEN_TEMP_FALL_C16 ->
  snd (tick K s v inp) =
    if dontTurndown (tick_update K s inp) then v
    else if DEFAULT_VALVE_PC_SAFER_OPEN K <=? v then DEFAULT_VALVE_PC_SAFER_OPEN K - 1
    else if TRV_MAX_SLEW_PC_PER_MIN <? v then v - TRV_MAX_SLEW_PC_PER_MIN
    else 0.
Proof.
  intros HK Hv Hunder Hbake Heco Hfrost Hd1 Hd10.
  rewrite tick_valve, compute_under by assumption.
  unfold underTarget, windowOpenGuard.
  rewrite Hbake, Heco.
  apply Z.ltb_lt in Hfrost, Hd1. apply Z.leb_le in Hd10.
  rewrite Hfrost, Hd1, Hd10. cbn [andb].
  destruct (dontTurndown (tick_update K s inp)); cbn [negb]; [reflexivity|].
  destruct (Z.leb_spec (DEFAULT_VALVE_PC_SAFER_OPEN K) v).
  - apply u8_small. lia.
  - destruct (Z.ltb_spec TRV_MAX_SLEW_PC_PER_MIN v); [|reflexivity].
    apply u8_small. unfold TRV_MAX_SLEW_PC_PER_MIN in *. lia.
Qed.

(** The room has fallen from 26.25C to 24.4C; the valve, at 60%, is taken
    to just under the safer-open threshold. *)
Lemma window_open_fast_close_witness :
  snd (tick sampleK (runningState false 0 0 [400; 410; 420; 430]) 60
         (snapshot 30 10 100 false false true false false 390)) = 49.
Proof.
  apply (window_open_fast_close sampleK
           (runningState false 0 0 [400; 410; 420; 430]) 60
           (snapshot 30 10 100 false false true false false 390));
    vm_compute; try reflexivity; try (split; congruence); congruence.
Defined.

(** * Over target *)

(** C8 — Scenario B.  Over target with a nonzero percent and turn-down not
    suppressed, if the temperature used for control is exactly one degree
    over the target, the deadband is widened and the last raw delta is
    negative, the tick holds: the percent is unchanged and no movement is
    recorded. *)
Theorem just_over_wide_deadband_holds (K : Constants) (s : ModelledRadValveState)
    (v : Z) (inp : ModelledRadValveInputState) :
  v <> 0 ->
  dontTurndown (tick_update K s inp) = false ->
  adjustedTempC K (tick_update K s inp) inp = targetTempC inp + 1 ->
  widenDeadband inp = true ->
  getRawDelta (tick_update K s inp) < 0 ->
  tick K s v inp = (setValveMoved (tick_update K s inp) false, v).
Proof.
  intros Hv Hdown Hjust Hwide Hfall.
  apply tick_hold.
  rewrite compute_over by lia.
  unfold overTarget.
  destruct (Z.eqb_spec v 0); [contradiction|]. cbn [negb].
  rewrite Hdown, Hjust, Z.eqb_refl, Hwide.
  apply Z.ltb_lt in Hfall. rewrite Hfall. reflexivity.
Qed.

Lemma just_over_wide_deadband_holds_witness :
  snd (tick sampleK (runningState false 0 0 [338; 339; 340; 341]) 40
         (snapshot 20 10 100 true false false false false 337)) = 40.
Proof.
  rewrite (just_over_wide_deadband_holds sampleK
             (runningState false 0 0 [338; 339; 340; 341]) 40
             (snapshot 20 10 100 true false false false false 337)).
  - reflexivity.
  - lia.
  - reflexivity.
  - reflexivity.
  - reflexivity.
  - vm_compute. reflexivity.
Defined.

(** * Under target, at or above the maximum *)

(** C9 — Under target with bake mode off and the window-open condition not
    met, a current percent at or above [maxPCOpen] yields exactly
    [maxPCOpen]: nothing is assumed of the cooldown counters, so a percent
    above [maxPCOpen] is pulled down at once even while the turn-down
    cooldown is armed. *)
Theorem under_target_caps_at_max (K : Constants) (s : ModelledRadValveState)
    (v : Z) (inp : ModelledRadValveInputState) :
  adjustedTempC K s inp < targetTempC inp ->
  inBakeMode inp = false ->
  windowOpenGuard K s inp = false ->
  maxPCOpen inp <= v ->
  computeRequiredTRVPercentOpen K s v inp = maxPCOpen inp.
Proof.
  intros Hunder Hbake Hwin Hmax.
  rewrite compute_under by assumption.
  unfold underTarget. rewrite Hbake, Hwin.
  destruct (Z.ltb_spec v (maxPCOpen inp)); [lia | reflexivity].
Qed.

(** The valve stands at 90% with [maxPCOpen = 70], the room is 3C under
    target and the turn-down cooldown is armed: the percent drops to 70. *)
Lemma under_target_caps_at_max_witness :
  dontTurndown (runningState false 0 7 [272; 272; 272; 272]) = true /\
  computeRequiredTRVPercentOpen sampleK (runningState false 0 7 [272; 272; 272; 272]) 90
    (snapshot 20 10 70 false false true false false 272) = 70.
Proof.
  split; [reflexivity|].
  apply (under_target_caps_at_max sampleK
           (runningState false 0 7 [272; 272; 272; 272]) 90
           (snapshot 20 10 70 false false true false false 272)).
  - vm_compute. reflexivity.
  - reflexivity.
  - reflexivity.
  - cbn. lia.
Defined.

(** * Range of the computed percent *)

(** C1 — Bounds.  The claim is that a snapshot with
    [0 <= minPCOpen <= maxPCOpen <= 100] and a current percent in [0,100]
    give a percent in [0,100] after the tick.  At [maxPCOpen = 3],
    [minPCOpen = 0], a current percent of 5 and a room 3C over target, the
    over-target branch subtracts the fast slew rate (10) from 5 and the
    [uint8_t] result is 251: the lower bound [TRV_SLEW_PC_PER_MIN_FAST] of
    the [constrain] guard is lost when [maxPCOpen] is below it. *)
Theorem percent_out_of_range_at_small_maxPCOpen :
  input_ok (snapshot 20 0 3 false false false false false 368) /\
  0 <= 5 <= 100 /\
  (forall K : Constants,
     computeRequiredTRVPercentOpen K (runningState false 0 0 [368; 368; 368; 368]) 5
       (snapshot 20 0 3 false false false false false 368) = 251) /\
  snd (tick sampleK (runningState false 0 0 [368; 368; 368; 368]) 5
         (snapshot 20 0 3 false false false false false 368)) = 251.
Proof.
  split; [cbv; intuition congruence|].
  split; [lia|].
  split; [intros K|]; vm_compute; reflexivity.
Qed.

(** The failing situation arises from the constructor state by ticks alone:
    one tick 1C under target opens the valve from 0 to 5 (above
    [maxPCOpen = 3]); once the room is over target and the turn-down
    cooldown has run out, the percent becomes 251. *)
Lemma percent_out_of_range_reachable :
  let under := snapshot 20 0 3 false false false false false 304 in
  let over := snapshot 20 0 3 false false false false false 352 in
  let '(s1, v1) := tick sampleK (initialState sampleK) 0 under in
  v1 = 5 /\ snd (ticks sampleK 10 s1 v1 over) = 251.
Proof. vm_compute. split; reflexivity. Qed.

(** * The mean filter *)

(** C6 — Smoothed mean.  The claim is that [getSmoothedRecent] returns the
    mean of the 4 entries rounded to the nearest integer, ties rounding up.
    For the history -2, -1, -1, -1 (just below 0C; sum -5, mean -1.25) the
    nearest integer is -1, but [(sum + 2) / 4] truncates towards zero and
    the function returns 0. *)
Theorem smoothed_mean_wrong_below_zero :
  getSmoothedRecent sampleK (runningState false 0 0 [-2; -1; -1; -1]) = 0 /\
  is_rounded_mean [-2; -1; -1; -1] (-1) /\
  ~ is_rounded_mean [-2; -1; -1; -1]
      (getSmoothedRecent sampleK (runningState false 0 0 [-2; -1; -1; -1])).
Proof.
  split; [reflexivity|].
  split; [cbv; intuition congruence|].
  intros [H _]. vm_compute in H. apply H. reflexivity.
Qed.

(** The summation loop adds up the first [i] entries. *)
Lemma sum_loop_4 (a b c d : Z) : sum_loop 4 [a; b; c; d] 0 = a + b + c + d.
Proof. cbn. lia. Qed.

(** On a 4-entry history whose sum is not below -2 (in particular on any
    history of non-negative temperatures) the function does return the
    rounded mean. *)
Lemma smoothed_mean_rounds_when_nonneg (K : Constants) (s : ModelledRadValveState)
    (a b c d : Z) :
  filterLength K = 4%nat ->
  prevRawTempC16 s = [a; b; c; d] ->
  -2 <= a + b + c + d ->
  getSmoothedRecent K s = (a + b + c + d + 2) `quot` 4 /\
  is_rounded_mean (prevRawTempC16 s) (getSmoothedRecent K s).
Proof.
  intros HN Hh Hsum.
  assert (E : getSmoothedRecent K s = (a + b + c + d + 2) `quot` 4).
  { unfold getSmoothedRecent, smallIntMean. rewrite HN, Hh.
    change (int8_countdown_trips 4) with 4%nat. rewrite sum_loop_4. reflexivity. }
  split; [exact E|].
  rewrite E, Hh. unfold is_rounded_mean. cbn [length foldr].
  rewrite Z.quot_div_nonneg by lia.
  change (Z.of_nat 4) with 4.
  pose proof (Z.div_mod (a + b + c + d + 2) 4 ltac:(lia)) as Hdm.
  pose proof (Z.mod_pos_bound (a + b + c + d + 2) 4 ltac:(lia)) as Hm.
  lia.
Qed.

(** * The loops over the filter memory *)

Lemma fill_loop_length i raw a : length (fill_loop i raw a) = length a.
Proof.
  revert a. induction i as [|j IH]; intros a; cbn [fill_loop]; [reflexivity|].
  rewrite IH. apply length_insert.
Qed.

Lemma fill_loop_lookup i raw a (idx : nat) :
  (i <= length a)%nat ->
  fill_loop i raw a !!! idx = if (idx <? i)%nat then raw else a !!! idx.
Proof.
  revert a. induction i as [|j IH]; intros a Hi; cbn [fill_loop].
  - destruct (Nat.ltb_spec idx 0); [lia|reflexivity].
  - rewrite IH by (rewrite length_insert; lia).
    destruct (Nat.ltb_spec idx j), (Nat.ltb_spec idx (S j)); try lia; try reflexivity.
    + assert (idx = j) by lia. subst idx.
      apply list_lookup_total_insert_eq. lia.
    + apply list_lookup_total_insert_ne. lia.
Qed.

Lemma shift_loop_length i a : length (shift_loop i a) = length a.
Proof.
  revert a. induction i as [|j IH]; intros a; [reflexivity|].
  destruct j as [|k]; [reflexivity|].
  change (shift_loop (S (S k)) a) with (shift_loop (S k) (<[S k := a !!! k]> a)).
  rewrite IH. apply length_insert.
Qed.

Lemma shift_loop_lookup i a (idx : nat) :
  (i <= length a)%nat ->
  shift_loop i a !!! idx =
    if (0 <? idx)%nat && (idx <? i)%nat then a !!! (idx - 1)%nat else a !!! idx.
Proof.
  revert a. induction i as [|j IH]; intros a Hi.
  - cbn [shift_loop]. rewrite andb_false_r. reflexivity.
  - destruct j as [|k].
    + cbn [shift_loop].
      destruct (Nat.ltb_spec 0 idx), (Nat.ltb_spec idx 1); try reflexivity; lia.
    + change (shift_loop (S (S k)) a) with (shift_loop (S k) (<[S k := a !!! k]> a)).
      rewrite IH by (rewrite length_insert; lia).
      destruct (Nat.ltb_spec 0 idx), (Nat.ltb_spec idx (S k)), (Nat.ltb_spec idx (S (S k)));
        cbn [andb]; try lia.
      * apply list_lookup_total_insert_ne. lia.
      * assert (idx = S k) by lia. subst idx.
        rewrite list_lookup_total_insert_eq by lia.
        f_equal. lia.
      * apply list_lookup_total_insert_ne. lia.
      * apply list_lookup_total_insert_ne. lia.
Qed.

Lemma jump_loop_true n i a :
  jump_loop n i a = true <->
  exists k : nat, (k < n)%nat /\
    Z.abs (a !!! (i + k)%nat - a !!! (i + k - 1)%nat) > MAX_TEMP_JUMP_C16.
Proof.
  revert i. induction n as [|m IH]; intros i; cbn [jump_loop].
  - split; [discriminate|]. intros (k & Hk & _). lia.
  - destruct (Z.gtb_spec (Z.abs (a !!! i - a !!! (i - 1)%nat)) MAX_TEMP_JUMP_C16) as [Hj|Hj].
    + split; [intros _|reflexivity].
      exists 0%nat. split; [lia|]. rewrite Nat.add_0_r. lia.
    + rewrite IH. split.
      * intros (k & Hk & Hk'). exists (S k). split; [lia|].
        replace (i + S k)%nat with (S i + k)%nat by lia. exact Hk'.
      * intros (k & Hk & Hk'). destruct k as [|k].
        -- rewrite Nat.add_0_r in Hk'. lia.
        -- exists k. split; [lia|].
           replace (S i + k)%nat with (i + S k)%nat by lia. exact Hk'.
Qed.

Lemma jump_loop_scan (h : list Z) :
  jump_loop (length h - 1) 1 h = true <-> adjacent_jump h.
Proof.
  rewrite jump_loop_true. unfold adjacent_jump.
  split; intros (k & Hk & Hj); exists k; (split; [lia|]).
  - replace (1 + k - 1)%nat with k in Hj by lia. exact Hj.
  - replace (1 + k - 1)%nat with k by lia. exact Hj.
Qed.

Section History.

Variable K : Constants.

Lemma tick_history_length (s : ModelledRadValveState) (inp : ModelledRadValveInputState) :
  length (tick_history K s inp) = length (prevRawTempC16 s).
Proof.
  unfold tick_history. rewrite length_insert, shift_loop_length.
  destruct (initialised s); cbn [negb]; [reflexivity | apply fill_loop_length].
Qed.

(** The newest entry is the raw temperature of this tick. *)
Lemma tick_history_newest (s : ModelledRadValveState) (inp : ModelledRadValveInputState) :
  (0 < length (prevRawTempC16 s))%nat ->
  tick_history K s inp !!! 0%nat = refTempC16 inp - refTempOffsetC16.
Proof.
  intros Hlen. unfold tick_history.
  apply list_lookup_total_insert_eq.
  rewrite shift_loop_length.
  destruct (initialised s); cbn [negb]; [|rewrite fill_loop_length]; exact Hlen.
Qed.

(** Once initialised, every older entry is the previous content of the
    slot before it. *)
Lemma tick_history_older (s : ModelledRadValveState) (inp : ModelledRadValveInputState)
    (i : nat) :
  initialised s = true ->
  length (prevRawTempC16 s) = filterLength K ->
  (S i < filterLength K)%nat ->
  tick_history K s inp !!! S i = prevRawTempC16 s !!! i.
Proof.
  intros Hinit Hlen Hi. unfold tick_history. rewrite Hinit. cbn [negb].
  rewrite list_lookup_total_insert_ne by lia.
  rewrite shift_loop_lookup by lia.
  destruct (Nat.ltb_spec 0 (S i)); [|lia].
  destruct (Nat.ltb_spec (S i) (filterLength K)); [|lia].
  cbn [andb]. f_equal. lia.
Qed.

(** On the first tick the whole memory is the raw temperature. *)
Lemma tick_history_first (s : ModelledRadValveState) (inp : ModelledRadValveInputState)
    (i : nat) :
  initialised s = false ->
  length (prevRawTempC16 s) = filterLength K ->
  (i < filterLength K)%nat ->
  tick_history K s inp !!! i = refTempC16 inp - refTempOffsetC16.
Proof.
  intros Hinit Hlen Hi.
  destruct i as [|i]; [apply tick_history_newest; lia|].
  unfold tick_history. rewrite Hinit. cbn [negb].
  rewrite list_lookup_total_insert_ne by lia.
  rewrite shift_loop_lookup by (rewrite fill_loop_length; lia).
  destruct (Nat.ltb_spec 0 (S i)); [|lia].
  destruct (Nat.ltb_spec (S i) (filterLength K)); [|lia].
  cbn [andb]. rewrite fill_loop_lookup by lia.
  destruct (Nat.ltb_spec (S i - 1) (filterLength K)); [reflexivity | lia].
Qed.

(** The filter flag after the update, as a condition on the shifted
    history: filtering stays on while the newest sample is far from the
    smoothed value, and is forced on by any adjacent jump. *)
Lemma tick_update_isFiltering (s : ModelledRadValveState)
    (inp : ModelledRadValveInputState) :
  length (prevRawTempC16 s) = filterLength K ->
  isFiltering (tick_update K s inp) = true <->
  (isFiltering s = true /\
   Z.abs (getSmoothedRecent K (tick_update K s inp)
          - (refTempC16 inp - refTempOffsetC16)) > MAX_TEMP_JUMP_C16) \/
  adjacent_jump (prevRawTempC16 (tick_update K s inp)).
Proof.
  intros Hlen.
  unfold getSmoothedRecent. cbn [tick_update isFiltering prevRawTempC16].
  rewrite <- jump_loop_scan, tick_history_length, Hlen.
  destruct (isFiltering s).
  - destruct (Z.leb_spec
                (Z.abs (smallIntMean (filterLength K) (tick_history K s inp)
                        - (refTempC16 inp - refTempOffsetC16)))
                MAX_TEMP_JUMP_C16) as [Hnear|Hfar]; cbn [negb].
    + split; [intros H; right; exact H|].
      intros [[_ H]|H]; [lia | exact H].
    + split; [intros _; left; split; [reflexivity | lia] | reflexivity].
  - cbn [negb]. split; [intros H; right; exact H|].
    intros [[H _]|H]; [discriminate | exact H].
Qed.

End History.

(** * Filter hysteresis *)

(** C5 — Filter hysteresis.  After the per-tick history shift: if any two
    adjacent entries of the history differ by more than 3 C16 units, the
    filtering flag is true after the tick (whether filtering was off before,
    or was on and passed the exit check, which is evaluated first); and
    filtering that was on is off after the tick only if the newest raw
    sample is within 3 C16 units of the smoothed mean.  Proved for any
    filter length, in particular for the 4-entry history. *)
Theorem filter_hysteresis (K : Constants) (s : ModelledRadValveState)
    (inp : ModelledRadValveInputState) :
  length (prevRawTempC16 s) = filterLength K ->
  (adjacent_jump (prevRawTempC16 (tick_update K s inp)) ->
   isFiltering (tick_update K s inp) = true) /\
  (isFiltering s = true ->
   isFiltering (tick_update K s inp) = false ->
   Z.abs (getSmoothedRecent K (tick_update K s inp)
          - (refTempC16 inp - refTempOffsetC16)) <= MAX_TEMP_JUMP_C16) /\
  (isFiltering s = true ->
   Z.abs (getSmoothedRecent K (tick_update K s inp)
          - (refTempC16 inp - refTempOffsetC16)) > MAX_TEMP_JUMP_C16 ->
   isFiltering (tick_update K s inp) = true).
Proof.
  intros Hlen.
  pose proof (tick_update_isFiltering K s inp Hlen) as Hiff.
  repeat split.
  - intros Hjump. apply Hiff. right. exact Hjump.
  - intros Hon Hoff.
    destruct (Z.leb_spec
                (Z.abs (getSmoothedRecent K (tick_update K s inp)
                        - (refTempC16 inp - refTempOffsetC16)))
                MAX_TEMP_JUMP_C16) as [Hnear|Hfar]; [exact Hnear|].
    assert (isFiltering (tick_update K s inp) = true) by (apply Hiff; left; split; [assumption | lia]).
    congruence.
  - intros Hon Hfar. apply Hiff. left. split; assumption.
Qed.

(** A 4-entry history 320, 320, 320, 320 receives the sample 330: the
    entries 330 and 320 are adjacent and 10 apart, and filtering, which was
    off, is on after the tick. *)
Lemma filter_hysteresis_witness :
  isFiltering (tick_update sampleK (runningState false 0 0 [320; 320; 320; 320])
                 (snapshot 20 10 100 false false false false false 330)) = true.
Proof.
  apply (proj1 (filter_hysteresis sampleK (runningState false 0 0 [320; 320; 320; 320])
                  (snapshot 20 10 100 false false false false false 330) eq_refl)).
  exists 0%nat. split; [vm_compute; lia | vm_compute; reflexivity].
Defined.

(** * Equilibrium *)

Section Equilibrium.
Variable K : Constants.
Variable inp : ModelledRadValveInputState.

Lemma settled_after_update (s : ModelledRadValveState) :
  (0 < filterLength K)%nat ->
  length (prevRawTempC16 s) = filterLength K ->
  isFiltering (tick_update K s inp) = false ->
  settled K inp (tick_update K s inp).
Proof.
  intros HN Hlen Hoff. unfold settled.
  split; [reflexivity|]. split; [exact Hoff|].
  cbn [tick_update prevRawTempC16].
  split; [rewrite tick_history_length; exact Hlen|].
  split; [apply tick_history_newest; lia|].
  intros Hjump.
  assert (isFiltering (tick_update K s inp) = true)
    by (apply tick_update_isFiltering; [exact Hlen | right; exact Hjump]).
  congruence.
Qed.

Lemma settled_stays_unfiltered (s : ModelledRadValveState) :
  settled K inp s -> isFiltering (tick_update K s inp) = false.
Proof.
  intros (Hinit & Hoff & Hlen & Hnew & Hnojump).
  destruct (isFiltering (tick_update K s inp)) eqn:E; [|reflexivity].
  apply tick_update_isFiltering in E; [|exact Hlen].
  destruct E as [[Hon _]|(i & Hi & Hj)]; [congruence|].
  cbn [tick_update prevRawTempC16] in Hi, Hj.
  rewrite tick_history_length, Hlen in Hi.
  rewrite tick_history_older in Hj by assumption.
  destruct i as [|i].
  - rewrite tick_history_newest, Hnew in Hj by lia.
    unfold MAX_TEMP_JUMP_C16 in Hj. lia.
  - rewrite tick_history_older in Hj by (try assumption; lia).
    exfalso. apply Hnojump. exists i. split; [lia | exact Hj].
Qed.

Lemma settled_setValveMoved (s : ModelledRadValveState) (b : bool) :
  settled K inp s -> settled K inp (setValveMoved s b).
Proof. intros H. exact H. Qed.

Lemma unfiltered_same_view (s s' : ModelledRadValveState) :
  isFiltering s = false -> isFiltering s' = false ->
  adjustedTempC K s inp = adjustedTempC K s' inp /\
  targetPO K s inp = targetPO K s' inp.
Proof.
  intros H H'.
  unfold targetPO, lsbits, adjustedTempC, adjustedTempC16. rewrite H, H'. split; reflexivity.
Qed.

(** At the target with the proportional target equal to the current
    percent, the computation leaves the percent alone. *)
Lemma compute_at_equilibrium (s : ModelledRadValveState) (v : Z) :
  adjustedTempC K s inp = targetTempC inp ->
  targetPO K s inp = v ->
  computeRequiredTRVPercentOpen K s v inp = v.
Proof.
  intros Hat Hpo. rewrite compute_at by assumption.
  unfold atTarget. rewrite Hpo, Z.eqb_refl. reflexivity.
Qed.

(** From an unfiltered equilibrium every further tick with the same
    snapshot holds. *)
Lemma ticks_hold_unfiltered (v : Z) (n : nat) :
  (0 < filterLength K)%nat ->
  forall s : ModelledRadValveState,
  length (prevRawTempC16 s) = filterLength K ->
  isFiltering (tick_update K s inp) = false ->
  adjustedTempC K (tick_update K s inp) inp = targetTempC inp ->
  targetPO K (tick_update K s inp) inp = v ->
  snd (ticks K (S n) s v inp) = v /\
  valveMoved (fst (ticks K (S n) s v inp)) = false /\
  cumulativeMovementPC (fst (ticks K (S n) s v inp)) = cumulativeMovementPC s.
Proof.
  intros HN. induction n as [|n IH]; intros s Hlen Hoff Hat Hpo.
  - cbn [ticks]. rewrite tick_hold by (apply compute_at_equilibrium; assumption).
    cbn. auto.
  - change (ticks K (S (S n)) s v inp)
      with (let '(s', v') := tick K s v inp in ticks K (S n) s' v' inp).
    rewrite tick_hold by (apply compute_at_equilibrium; assumption).
    pose proof (settled_after_update s HN Hlen Hoff) as Hset.
    apply (settled_setValveMoved _ false) in Hset.
    pose proof (settled_stays_unfiltered _ Hset) as Hoff'.
    destruct (unfiltered_same_view _ _ Hoff Hoff') as [Eat Epo].
    destruct (IH (setValveMoved (tick_update K s inp) false)) as (Hv & Hm & Hc).
    + cbn [setValveMoved tick_update prevRawTempC16].
      rewrite tick_history_length. exact Hlen.
    + exact Hoff'.
    + rewrite <- Eat. exact Hat.
    + rewrite <- Epo. exact Hpo.
    + split; [exact Hv|]. split; [exact Hm|]. rewrite Hc. reflexivity.
Qed.

End Equilibrium.

(** C7 as stated fails while filtering is engaged: the smoothed temperature
    keeps moving as the history shifts.  With the history 320, 320, 400, 400
    and filtering on, a room at 20.0C (raw 320), target 21C and the valve at
    24%: the first tick sees the smoothed value at the target with
    [targetPO = 24] and holds; on the second tick, with the same snapshot,
    filtering disengages, the room is seen under target and the valve moves
    to 29%. *)
Lemma equilibrium_lost_while_filtering :
  adjustedTempC sampleK
    (tick_update sampleK (runningState true 0 0 [320; 320; 400; 400])
       (snapshot 21 10 100 false false false false false 320))
    (snapshot 21 10 100 false false false false false 320) = 21 /\
  targetPO sampleK
    (tick_update sampleK (runningState true 0 0 [320; 320; 400; 400])
       (snapshot 21 10 100 false false false false false 320))
    (snapshot 21 10 100 false false false false false 320) = 24 /\
  snd (ticks sampleK 1 (runningState true 0 0 [320; 320; 400; 400]) 24
         (snapshot 21 10 100 false false false false false 320)) = 24 /\
  snd (ticks sampleK 2 (runningState true 0 0 [320; 320; 400; 400]) 24
         (snapshot 21 10 100 false false false false false 320)) = 29 /\
  valveMoved (fst (ticks sampleK 2 (runningState true 0 0 [320; 320; 400; 400]) 24
         (snapshot 21 10 100 false false false false false 320))) = true.
Proof. vm_compute. repeat split; reflexivity. Qed.

(** C7 — Idempotence at equilibrium, amended.  When the temperature used for
    control equals the target and the proportional target equals the current
    percent, the tick produces no movement: the percent is unchanged,
    [valveMoved] is false and the cumulative movement is unchanged.  If
    moreover filtering is not engaged at that tick, the same holds after
    every further tick with the same snapshot. *)
Theorem equilibrium_idempotent (K : Constants) (s : ModelledRadValveState) (v : Z)
    (inp : ModelledRadValveInputState) :
  (0 < filterLength K)%nat ->
  length (prevRawTempC16 s) = filterLength K ->
  adjustedTempC K (tick_update K s inp) inp = targetTempC inp ->
  targetPO K (tick_update K s inp) inp = v ->
  (snd (tick K s v inp) = v /\
   valveMoved (fst (tick K s v inp)) = false /\
   cumulativeMovementPC (fst (tick K s v inp)) = cumulativeMovementPC s) /\
  (isFiltering (tick_update K s inp) = false ->
   forall n : nat,
     snd (ticks K (S n) s v inp) = v /\
     valveMoved (fst (ticks K (S n) s v inp)) = false /\
     cumulativeMovementPC (fst (ticks K (S n) s v inp)) = cumulativeMovementPC s).
Proof.
  intros HN Hlen Hat Hpo. split.
  - rewrite tick_hold by (apply compute_at_equilibrium; assumption).
    cbn. auto.
  - intros Hoff n. apply ticks_hold_unfiltered; assumption.
Qed.

(** A steady room at 20.25C (reference 20.75C), target 20C, valve at 24%: the valve holds
    for one and for a hundred ticks. *)
Lemma equilibrium_idempotent_witness :
  snd (tick sampleK (runningState false 0 0 [324; 324; 324; 324]) 24
         (snapshot 20 10 100 false false false false false 324)) = 24 /\
  snd (ticks sampleK 100 (runningState false 0 0 [324; 324; 324; 324]) 24
         (snapshot 20 10 100 false false false false false 324)) = 24.
Proof.
  destruct (equilibrium_idempotent sampleK
              (runningState false 0 0 [324; 324; 324; 324]) 24
              (snapshot 20 10 100 false false false false false 324))
    as [(Hv & _ & _) Hmore].
  - vm_compute. lia.
  - reflexivity.
  - vm_compute. reflexivity.
  - vm_compute. reflexivity.
  - split; [exact Hv|].
    destruct (Hmore ltac:(vm_compute; reflexivity) 99%nat) as (Hv' & _ & _).
    exact Hv'.
Defined.

(** The computed percent is a [uint8_t] value. *)
Lemma compute_u8_range (K : Constants) (s : ModelledRadValveState) (v : Z)
    (inp : ModelledRadValveInputState) :
  input_ok inp -> 0 <= v <= 255 ->
  0 <= computeRequiredTRVPercentOpen K s v inp <= 255.
Proof.
  intros (H0 & H1 & H2) Hv.
  unfold computeRequiredTRVPercentOpen, underTarget, overTarget, atTarget, targetPO.
  cbv zeta.
  repeat match goal with
         | |- context [u8 ?z] =>
           let U := fresh "U" in
           let u := fresh "u" in
           pose proof (u8_range z) as U; set (u := u8 z) in *; clearbody u
         end.
  case_ifs; lia.
Qed.

Section Monotone.

Variable K : Constants.
Variable s : ModelledRadValveState.
Variable v : Z.
Variable inp : ModelledRadValveInputState.

Hypothesis K_ok : constants_ok K.
Hypothesis inp_ok : input_ok inp.
Hypothesis v_u8 : 0 <= v <= 255.







(** Away from the combination [maxPCOpen < TRV_SLEW_PC_PER_MIN_FAST] with a
    percent above [maxPCOpen], a percent in [0,100] stays in [0,100]. *)
Lemma percent_in_range_otherwise :
  v <= 100 ->
  TRV_SLEW_PC_PER_MIN_FAST <= maxPCOpen inp \/ v <= maxPCOpen inp ->
  0 <= computeRequiredTRVPercentOpen K s v inp <= 100.
Proof.
  intros Hv Hslip.
  pose proof (targetPO_range K s inp inp_ok) as Hpo.
  destruct inp_ok as (H0 & H1 & H2).
  destruct K_ok as (HS & HM & _).
  unfold computeRequiredTRVPercentOpen.
  destruct (_ <? _); [|destruct (_ <? _)].
  - unfold underTarget. decision_tree.
  - unfold overTarget, constrain. decision_tree.
  - unfold atTarget.
    generalize dependent (targetPO K s inp). intros tp Hpo.
    decision_tree.
Qed.

End Monotone.

Section Arming.

Variable K : Constants.
Hypothesis K_ok : constants_ok K.



End Arming.

Section Hold.
Variable K : Constants.
Variable s : ModelledRadValveState.
Variable v : Z.
Variable inp : ModelledRadValveInputState.
Hypothesis K_ok : constants_ok K.
Hypothesis inp_ok : input_ok inp.
Hypothesis v_u8 : 0 <= v <= 255.


End Hold.

Section Persist.

Variable K : Constants.
Hypothesis K_ok : constants_ok K.



End Persist.

(** * Anti-hunt *)


(** With a delay of one minute the cooldown armed by a tick has run out when
    the next tick decides: after an opening from 0 to 10%, the next tick,
    over target, closes to 9%. *)
Lemma cooldown_of_one_minute_expires :
  let K1 := {| DEFAULT_VALVE_PC_SAFER_OPEN := 50;
               DEFAULT_VALVE_PC_MODERATELY_OPEN := 67;
               DEFAULT_MAX_RUN_ON_TIME_M := 5; MIN_VALVE_TARGET_C := 5;
               TURNUP_COUNTDOWN_M := 1; TURNDOWN_COUNTDOWN_M := 1;
               filterLength := 4; CUMULATIVE_MOVEMENT_MODULUS := 65536 |} in
  let opened := tick K1 (initialState K1) 0
                  (snapshot 20 10 100 false false false false false 312) in
  snd opened = 10 /\
  dontTurndown (fst opened) = true /\
  snd (tick K1 (fst opened) (snd opened)
         (snapshot 20 10 100 false false false false false 400)) = 9.
Proof. vm_compute. repeat split; reflexivity. Qed.



(** * Further properties of the controller *)

(** ** What a tick leaves in the state *)

Section TickState.

Variable K : Constants.
Variable inp : ModelledRadValveInputState.

(** What [tick] leaves of the filter state and of the counters. *)
Lemma tick_filter_state (s : ModelledRadValveState) (v : Z) :
  initialised (fst (tick K s v inp)) = true /\
  isFiltering (fst (tick K s v inp)) = isFiltering (tick_update K s inp) /\
  prevRawTempC16 (fst (tick K s v inp)) = tick_history K s inp.
Proof.
  unfold tick. destruct (negb _); [destruct (_ <? _)|]; repeat split.
Qed.

Lemma tick_turnup_countdown (s : ModelledRadValveState) (v : Z) :
  snd (tick K s v inp) <= v ->
  valveTurnupCountdownM (fst (tick K s v inp)) =
    valveTurnupCountdownM (tick_update K s inp).
Proof.
  unfold tick.
  destruct (Z.eqb_spec (computeRequiredTRVPercentOpen K (tick_update K s inp) v inp) v);
    cbn [negb]; [reflexivity|].
  destruct (Z.ltb_spec v (computeRequiredTRVPercentOpen K (tick_update K s inp) v inp));
    cbn [fst snd]; [lia | reflexivity].
Qed.

Lemma tick_turndown_countdown (s : ModelledRadValveState) (v : Z) :
  v <= snd (tick K s v inp) ->
  valveTurndownCountdownM (fst (tick K s v inp)) =
    valveTurndownCountdownM (tick_update K s inp).
Proof.
  unfold tick.
  destruct (Z.eqb_spec (computeRequiredTRVPercentOpen K (tick_update K s inp) v inp) v);
    cbn [negb]; [reflexivity|].
  destruct (Z.ltb_spec v (computeRequiredTRVPercentOpen K (tick_update K s inp) v inp));
    cbn [fst snd]; [reflexivity | lia].
Qed.

(** The movement counter after a tick: untouched when the percent is
    unchanged, else advanced by the distance moved, modulo its range. *)
Lemma tick_cumulative (s : ModelledRadValveState) (v : Z) :
  cumulativeMovementPC (fst (tick K s v inp)) =
    if snd (tick K s v inp) =? v then cumulativeMovementPC s
    else (cumulativeMovementPC s + Z.abs (snd (tick K s v inp) - v))
           mod CUMULATIVE_MOVEMENT_MODULUS K.
Proof.
  unfold tick.
  destruct (Z.eqb_spec (computeRequiredTRVPercentOpen K (tick_update K s inp) v inp) v) as [E|E];
    cbn [negb].
  - cbn [fst snd]. rewrite Z.eqb_refl. reflexivity.
  - destruct (Z.ltb_spec v (computeRequiredTRVPercentOpen K (tick_update K s inp) v inp));
      cbn [fst snd];
      (destruct (Z.eqb_spec (computeRequiredTRVPercentOpen K (tick_update K s inp) v inp) v);
       [contradiction|]); cbn; f_equal; lia.
Qed.

End TickState.


(** ** The reference temperature *)

(** X1 — Round trip of the reference offset.  The temperature handed to
    [setReferenceTemperatures] is the sample that the next tick shifts into
    the head of the filter memory: the offset added to form the reference
    temperature is removed again by [tick]. *)
Theorem reference_temperature_round_trip (K : Constants) (s : ModelledRadValveState)
    (v : Z) (inp : ModelledRadValveInputState) (t : Z) :
  (0 < filterLength K)%nat ->
  length (prevRawTempC16 s) = filterLength K ->
  prevRawTempC16 (fst (tick K s v (setReferenceTemperatures inp t))) !!! 0%nat = t.
Proof.
  intros HN Hlen.
  destruct (tick_filter_state K (setReferenceTemperatures inp t) s v) as (_ & _ & E).
  rewrite E, tick_history_newest by lia.
  cbn [refTempC16 setReferenceTemperatures]. lia.
Qed.

Lemma reference_temperature_round_trip_witness :
  prevRawTempC16
    (fst (tick sampleK (runningState false 0 0 [320; 321; 322; 323]) 30
            (setReferenceTemperatures (newInputState 15 0) 333))) !!! 0%nat = 333.
Proof.
  apply (reference_temperature_round_trip sampleK
           (runningState false 0 0 [320; 321; 322; 323]) 30 (newInputState 15 0) 333).
  - cbn. lia.
  - reflexivity.
Defined.

(** The whole-degree temperature used for control, without filtering and
    within the range of [int8_t]: the real temperature plus half a degree,
    rounded down. *)
Lemma adjustedTempC_unfiltered (K : Constants) (s : ModelledRadValveState)
    (inp : ModelledRadValveInputState) (t : Z) :
  isFiltering s = false -> -2048 <= t + 8 < 2048 ->
  adjustedTempC K s (setReferenceTemperatures inp t) = (t + 8) / 16.
Proof.
  intros Hf Hr. unfold adjustedTempC, adjustedTempC16. rewrite Hf.
  cbn [refTempC16 setReferenceTemperatures].
  unfold refTempOffsetC16. rewrite Z.shiftr_div_pow2 by lia. change (2 ^ 4) with 16.
  unfold i8.
  assert (-128 <= (t + 8) / 16 < 128).
  { split; [apply Z.div_le_lower_bound; lia | apply Z.div_lt_upper_bound; lia]. }
  rewrite Z.mod_small by lia. lia.
Qed.

(** X2 — The proportional band is centred on the target.  Without filtering,
    for a real temperature [t] (in C/16, within the [int8_t] range of whole
    degrees) set with [setReferenceTemperatures]: the valve is driven by the
    under-target rules exactly when [t] is more than half a degree below the
    target, by the over-target rules exactly when [t] is half a degree or
    more above it, and by the proportional rules in between. *)
Theorem proportional_band_centred_on_target (K : Constants) (s : ModelledRadValveState)
    (v : Z) (inp : ModelledRadValveInputState) (t : Z) :
  isFiltering s = false ->
  -2048 <= t + 8 < 2048 ->
  computeRequiredTRVPercentOpen K s v (setReferenceTemperatures inp t) =
    if t <? 16 * targetTempC inp - 8
    then underTarget K s v (setReferenceTemperatures inp t)
    else if 16 * targetTempC inp + 8 <=? t
    then overTarget K s v (setReferenceTemperatures inp t)
    else atTarget K s v (setReferenceTemperatures inp t).
Proof.
  intros Hf Hr. unfold computeRequiredTRVPercentOpen.
  rewrite adjustedTempC_unfiltered by assumption.
  cbn [targetTempC setReferenceTemperatures].
  pose proof (Z.div_mod (t + 8) 16 ltac:(lia)) as Hdm.
  pose proof (Z.mod_pos_bound (t + 8) 16 ltac:(lia)) as Hm.
  destruct (Z.ltb_spec t (16 * targetTempC inp - 8)).
  - destruct (Z.ltb_spec ((t + 8) / 16) (targetTempC inp)); [reflexivity | lia].
  - destruct (Z.ltb_spec ((t + 8) / 16) (targetTempC inp)); [lia|].
    destruct (Z.leb_spec (16 * targetTempC inp + 8) t).
    + destruct (Z.ltb_spec (targetTempC inp) ((t + 8) / 16)); [reflexivity | lia].
    + destruct (Z.ltb_spec (targetTempC inp) ((t + 8) / 16)); [lia | reflexivity].
Qed.

(** With the default target of 12C, a room at exactly 11.5C (184/16) is
    already inside the proportional band. *)
Lemma proportional_band_centred_on_target_witness :
  computeRequiredTRVPercentOpen sampleK (runningState false 0 0 [184; 184; 184; 184]) 30
    (setReferenceTemperatures (newInputState 15 0) 184) =
  atTarget sampleK (runningState false 0 0 [184; 184; 184; 184]) 30
    (setReferenceTemperatures (newInputState 15 0) 184).
Proof.
  exact (proportional_band_centred_on_target sampleK
           (runningState false 0 0 [184; 184; 184; 184]) 30 (newInputState 15 0) 184
           eq_refl ltac:(lia)).
Defined.

(** ** The mean filter on ordinary temperatures *)

Lemma sum_loop_bounds (n : nat) (data : list Z) (lo hi acc : Z) :
  (forall i : nat, (i < n)%nat -> lo <= data !!! i <= hi) ->
  acc + Z.of_nat n * lo <= sum_loop n data acc <= acc + Z.of_nat n * hi.
Proof.
  revert acc. induction n as [|n IH]; intros acc Hb; cbn [sum_loop]; [lia|].
  pose proof (Hb n ltac:(lia)) as Hn.
  specialize (IH (acc + data !!! n) (fun i Hi => Hb i ltac:(lia))).
  lia.
Qed.

Lemma half_below (N : nat) : (0 < N)%nat -> 0 <= Z.of_nat (N / 2) < Z.of_nat N.
Proof.
  intros HN. split; [lia|]. apply Nat2Z.inj_lt. apply Nat.div_lt; lia.
Qed.

(** Up to 128 entries the [int8_t] index visits every entry. *)
Lemma int8_countdown_trips_small (N : nat) :
  (0 < N <= 128)%nat -> int8_countdown_trips N = N.
Proof.
  intros HN. unfold int8_countdown_trips, i8. cbv zeta.
  destruct (Nat.eq_dec N 128%nat) as [->|Hne]; [reflexivity|].
  rewrite (Z.mod_small (Z.of_nat N + 128)) by lia.
  replace (Z.of_nat N + 128 - 128 - 1 + 128) with (Z.of_nat N + 127) by lia.
  rewrite (Z.mod_small (Z.of_nat N + 127)) by lia.
  destruct (Z.leb_spec 0 (Z.of_nat N + 127 - 128)); lia.
Qed.

Lemma smallIntMean_bounds (N : nat) (data : list Z) (lo hi : Z) :
  (0 < N <= 128)%nat -> 0 <= lo ->
  (forall i : nat, (i < N)%nat -> lo <= data !!! i <= hi) ->
  lo <= smallIntMean N data <= hi.
Proof.
  intros HN' Hlo Hb. unfold smallIntMean.
  rewrite int8_countdown_trips_small by exact HN'.
  assert (HN : (0 < N)%nat) by lia.
  pose proof (sum_loop_bounds N data lo hi 0 Hb) as Hs.
  pose proof (half_below N HN) as Hhalf.
  rewrite Z.quot_div_nonneg by nia.
  split.
  - apply Z.div_le_lower_bound; nia.
  - apply Z.lt_succ_r. apply Z.div_lt_upper_bound; nia.
Qed.

(** The mean of a constant memory is that constant, or one more when the
    constant is negative. *)
Lemma smallIntMean_constant (N : nat) (data : list Z) (x : Z) :
  (0 < N <= 128)%nat ->
  (forall i : nat, (i < N)%nat -> data !!! i = x) ->
  0 <= smallIntMean N data - x <= 1.
Proof.
  intros HN' Hc. unfold smallIntMean.
  rewrite int8_countdown_trips_small by exact HN'.
  assert (HN : (0 < N)%nat) by lia.
  assert (Hb : forall i : nat, (i < N)%nat -> x <= data !!! i <= x)
    by (intros i Hi; rewrite (Hc i Hi); lia).
  pose proof (sum_loop_bounds N data x x 0 Hb) as Hs.
  pose proof (half_below N HN) as Hhalf.
  set (a := sum_loop N data 0 + Z.of_nat (N / 2)) in *.
  pose proof (Z.quot_rem' a (Z.of_nat N)) as Hqr.
  pose proof (Z.rem_bound_abs a (Z.of_nat N) ltac:(lia)) as Hr.
  nia.
Qed.

(** X3 — The smoothed temperature stays within the samples.  For a filter
    of at most 128 entries (beyond that the [int8_t] loop index no longer
    visits the entries), with [int] sums that do not overflow: when every
    entry of the filter memory lies between [lo] and [hi], with [lo] not
    negative, so does [getSmoothedRecent]. *)
Theorem smoothed_within_sample_range (K : Constants) (s : ModelledRadValveState)
    (lo hi : Z) :
  (0 < filterLength K <= 128)%nat ->
  0 <= lo ->
  (forall i : nat, (i < filterLength K)%nat -> lo <= prevRawTempC16 s !!! i <= hi) ->
  lo <= getSmoothedRecent K s <= hi.
Proof. intros HN Hlo Hb. apply smallIntMean_bounds; assumption. Qed.

Lemma smoothed_within_sample_range_witness :
  320 <= getSmoothedRecent sampleK (runningState true 0 0 [320; 326; 322; 324]) <= 326.
Proof.
  apply (smoothed_within_sample_range sampleK
           (runningState true 0 0 [320; 326; 322; 324]) 320 326).
  - cbn. lia.
  - lia.
  - intros i Hi. cbn in Hi.
    destruct i as [|[|[|[|i]]]]; cbn; lia.
Defined.

(** With 129 entries the summation loop never runs and the result is 0,
    whatever the samples are. *)
Lemma smoothed_is_zero_at_129 (data : list Z) : smallIntMean 129 data = 0.
Proof. reflexivity. Qed.

(** ** The first tick *)

(** X4 — Lazy initialisation.  For a filter of at most 128 entries (the
    range in which the [int8_t] index of the mean visits them all), with
    [int] sums that do not overflow: the first tick of a state that is not
    yet initialised, whatever its filter memory and filtering flag hold,
    leaves the state initialised, every entry of the filter memory equal to
    the raw temperature of that tick, and filtering off. *)
Theorem first_tick_fills_history (K : Constants) (s : ModelledRadValveState)
    (v : Z) (inp : ModelledRadValveInputState) :
  (0 < filterLength K <= 128)%nat ->
  length (prevRawTempC16 s) = filterLength K ->
  initialised s = false ->
  initialised (fst (tick K s v inp)) = true /\
  (forall i : nat, (i < filterLength K)%nat ->
     prevRawTempC16 (fst (tick K s v inp)) !!! i = refTempC16 inp - refTempOffsetC16) /\
  isFiltering (fst (tick K s v inp)) = false.
Proof.
  intros HN Hlen Hinit.
  destruct (tick_filter_state K inp s v) as (Ei & Ef & Eh).
  rewrite Ei, Ef, Eh.
  assert (Hall : forall i : nat, (i < filterLength K)%nat ->
            tick_history K s inp !!! i = refTempC16 inp - refTempOffsetC16)
    by (intros i Hi; apply tick_history_first; assumption).
  split; [reflexivity|]. split; [exact Hall|].
  destruct (isFiltering (tick_update K s inp)) eqn:E; [|reflexivity].
  apply tick_update_isFiltering in E; [|exact Hlen].
  cbn [tick_update prevRawTempC16] in E. unfold getSmoothedRecent in E.
  cbn [tick_update prevRawTempC16] in E.
  destruct E as [[_ Hfar]|(i & Hi & Hj)].
  - pose proof (smallIntMean_constant (filterLength K) (tick_history K s inp) _ HN Hall) as Hc.
    unfold MAX_TEMP_JUMP_C16 in Hfar. lia.
  - rewrite tick_history_length, Hlen in Hi.
    rewrite !Hall in Hj by lia. unfold MAX_TEMP_JUMP_C16 in Hj. lia.
Qed.

(** A state with stale memory and the filtering flag set, but not
    initialised, is clean after one tick at 19.0C. *)
Lemma first_tick_fills_history_witness :
  prevRawTempC16
    (fst (tick sampleK
            {| initialised := false; isFiltering := true; valveMoved := false;
               cumulativeMovementPC := 0; valveTurndownCountdownM := 0;
               valveTurnupCountdownM := 0; prevRawTempC16 := [100; 900; -50; 7] |}
            0 (snapshot 20 10 100 false false false false false 304)))
    = [304; 304; 304; 304] /\
  isFiltering
    (fst (tick sampleK
            {| initialised := false; isFiltering := true; valveMoved := false;
               cumulativeMovementPC := 0; valveTurndownCountdownM := 0;
               valveTurnupCountdownM := 0; prevRawTempC16 := [100; 900; -50; 7] |}
            0 (snapshot 20 10 100 false false false false false 304))) = false.
Proof.
  split; [vm_compute; reflexivity|].
  apply (first_tick_fills_history sampleK
           {| initialised := false; isFiltering := true; valveMoved := false;
              cumulativeMovementPC := 0; valveTurndownCountdownM := 0;
              valveTurnupCountdownM := 0; prevRawTempC16 := [100; 900; -50; 7] |}
           0 (snapshot 20 10 100 false false false false false 304)).
  - cbn. lia.
  - reflexivity.
  - reflexivity.
Defined.

(** ** Bounds kept by the computation *)

Section Bounds.

Variable K : Constants.

(** X5 — [maxPCOpen] is respected.  For a snapshot with
    [0 <= minPCOpen <= maxPCOpen <= 100] whose [maxPCOpen] is not below the
    opening slew rate in force (the very fast rate with a wide deadband, the
    maximum normal rate otherwise), a percent within [0, maxPCOpen] is
    within [0, maxPCOpen] after the tick. *)
Theorem maxPCOpen_respected (s : ModelledRadValveState) (v : Z)
    (inp : ModelledRadValveInputState) :
  constants_ok K -> input_ok inp ->
  0 <= v <= maxPCOpen inp ->
  (if widenDeadband inp then TRV_SLEW_PC_PER_MIN_VFAST else TRV_MAX_SLEW_PC_PER_MIN)
    <= maxPCOpen inp ->
  0 <= snd (tick K s v inp) <= maxPCOpen inp.
Proof.
  intros HK Hok Hv Hslew. rewrite tick_valve.
  pose proof (targetPO_range K (tick_update K s inp) inp Hok) as Hpo.
  destruct Hok as (H0 & H1 & H2). destruct HK as (HS & HM & _).
  unfold computeRequiredTRVPercentOpen.
  destruct (_ <? _); [|destruct (_ <? _)].
  - unfold underTarget. decision_tree.
  - unfold overTarget, constrain. decision_tree.
  - unfold atTarget.
    generalize dependent (targetPO K (tick_update K s inp) inp). intros tp Hpo.
    decision_tree.
Qed.

(** X6 — Over target the valve closes.  With the temperature used for
    control over the target, the valve open, turn-down not suppressed, and
    not in the hold that a wide deadband grants while the room, one degree
    over, is cooling: the tick strictly reduces the percent (stated for
    [maxPCOpen] not below the fast slew rate, or a percent not above
    [maxPCOpen]). *)
Theorem over_target_closes (s : ModelledRadValveState) (v : Z)
    (inp : ModelledRadValveInputState) :
  input_ok inp ->
  0 < v <= 255 ->
  TRV_SLEW_PC_PER_MIN_FAST <= maxPCOpen inp \/ v <= maxPCOpen inp ->
  targetTempC inp < adjustedTempC K (tick_update K s inp) inp ->
  dontTurndown (tick_update K s inp) = false ->
  (adjustedTempC K (tick_update K s inp) inp = targetTempC inp + 1 ->
   widenDeadband inp = true -> 0 <= getRawDelta (tick_update K s inp)) ->
  0 <= snd (tick K s v inp) < v.
Proof.
  intros (H0 & H1 & H2) Hv Hslip Hover Hd Hhold.
  rewrite tick_valve, compute_over by assumption.
  unfold overTarget, constrain. rewrite Hd.
  decision_tree.
  all: specialize (Hhold ltac:(assumption) ltac:(assumption)); lia.
Qed.

(** X7 — Glacial movement.  With the [glacial] flag set, bake mode off, the
    window-open condition not met, the temperature used for control not
    over the target and a percent within [0, maxPCOpen], the tick moves the
    valve by at most one percent. *)
Theorem glacial_moves_one_percent (s : ModelledRadValveState) (v : Z)
    (inp : ModelledRadValveInputState) :
  input_ok inp ->
  0 <= v <= maxPCOpen inp ->
  glacial inp = true ->
  inBakeMode inp = false ->
  windowOpenGuard K (tick_update K s inp) inp = false ->
  adjustedTempC K (tick_update K s inp) inp <= targetTempC inp ->
  Z.abs (snd (tick K s v inp) - v) <= 1.
Proof.
  intros Hok Hv Hg Hb Hw Hzone. rewrite tick_valve.
  pose proof (targetPO_range K (tick_update K s inp) inp Hok) as Hpo.
  destruct Hok as (H0 & H1 & H2).
  unfold computeRequiredTRVPercentOpen.
  destruct (Z.ltb_spec (adjustedTempC K (tick_update K s inp) inp) (targetTempC inp)).
  - unfold underTarget. rewrite Hb, Hw, Hg. cbn [orb].
    decision_tree.
  - destruct (Z.ltb_spec (targetTempC inp) (adjustedTempC K (tick_update K s inp) inp)); [lia|].
    unfold atTarget. rewrite Hb, Hg. cbn [orb].
    generalize dependent (targetPO K (tick_update K s inp) inp). intros tp Hpo.
    decision_tree.
Qed.

(** X8 — The movement counter covers the travel.  As long as the counter
    cannot wrap during the [n] ticks (its value plus 255 per tick stays
    below the range of its type), after [n] ticks with a snapshot
    [cumulativeMovementPC] has grown by at least the distance between the
    first and the last percent; in particular it has not decreased. *)
Theorem cumulative_movement_covers_net_travel (n : nat) (s : ModelledRadValveState)
    (v : Z) (inp : ModelledRadValveInputState) :
  input_ok inp ->
  0 <= v <= 255 ->
  0 <= cumulativeMovementPC s ->
  cumulativeMovementPC s + 255 * Z.of_nat n < CUMULATIVE_MOVEMENT_MODULUS K ->
  cumulativeMovementPC s + Z.abs (snd (ticks K n s v inp) - v)
    <= cumulativeMovementPC (fst (ticks K n s v inp)).
Proof.
  intros Hok. revert s v. induction n as [|n IH]; intros s v Hv Hc Hroom.
  - cbn. lia.
  - cbn [ticks].
    pose proof (tick_cumulative K inp s v) as Hcum.
    pose proof (compute_u8_range K (tick_update K s inp) v inp Hok Hv) as Hv1.
    rewrite <- tick_valve in Hv1.
    destruct (tick K s v inp) as [s1 v1] eqn:E. cbn [fst snd] in Hcum, Hv1.
    assert (Hc1 : cumulativeMovementPC s1 = cumulativeMovementPC s + Z.abs (v1 - v)).
    { rewrite Hcum. destruct (Z.eqb_spec v1 v); [lia|].
      apply Z.mod_small. lia. }
    specialize (IH s1 v1 Hv1 ltac:(lia) ltac:(lia)). lia.
Qed.

End Bounds.

(** Three ticks in a cold room take the valve from 10% to 87%; the counter,
    far from its limit, has advanced by 77. *)
Lemma cumulative_movement_covers_net_travel_witness :
  0 + Z.abs (snd (ticks sampleK 3 (runningState false 0 0 [272; 272; 272; 272]) 10
                    (snapshot 20 10 100 false false false false false 272)) - 10)
  <= cumulativeMovementPC
       (fst (ticks sampleK 3 (runningState false 0 0 [272; 272; 272; 272]) 10
               (snapshot 20 10 100 false false false false false 272))).
Proof.
  apply (cumulative_movement_covers_net_travel sampleK 3
           (runningState false 0 0 [272; 272; 272; 272]) 10
           (snapshot 20 10 100 false false false false false 272)).
  - unfold input_ok. cbn. lia.
  - lia.
  - cbn. lia.
  - cbn. lia.
Defined.

Lemma maxPCOpen_respected_witness :
  0 <= snd (tick sampleK (runningState false 0 0 [272; 272; 272; 272]) 65
              (snapshot 20 10 70 true false false false false 272)) <= 70.
Proof.
  apply (maxPCOpen_respected sampleK (runningState false 0 0 [272; 272; 272; 272]) 65
           (snapshot 20 10 70 true false false false false 272)).
  - unfold constants_ok. cbn. lia.
  - unfold input_ok. cbn. lia.
  - cbn. lia.
  - vm_compute. congruence.
Defined.

Lemma over_target_closes_witness :
  0 <= snd (tick sampleK (runningState false 0 0 [352; 352; 352; 352]) 60
              (snapshot 20 10 100 false false true false false 352)) < 60.
Proof.
  apply (over_target_closes sampleK (runningState false 0 0 [352; 352; 352; 352]) 60
           (snapshot 20 10 100 false false true false false 352)).
  - unfold input_ok. cbn. lia.
  - lia.
  - left. vm_compute. congruence.
  - vm_compute. reflexivity.
  - reflexivity.
  - intros _ Hw. discriminate Hw.
Defined.

Lemma glacial_moves_one_percent_witness :
  Z.abs (snd (tick sampleK (runningState false 0 0 [272; 272; 272; 272]) 30
                (snapshot 20 10 100 false true false false false 272)) - 30) <= 1.
Proof.
  apply (glacial_moves_one_percent sampleK (runningState false 0 0 [272; 272; 272; 272]) 30
           (snapshot 20 10 100 false true false false false 272)).
  - unfold input_ok. cbn. lia.
  - cbn. lia.
  - reflexivity.
  - reflexivity.
  - reflexivity.
  - vm_compute. congruence.
Defined.

(** ** Persistent error *)

Section Steady.

Variable K : Constants.
Variable inp : ModelledRadValveInputState.

Lemma settled_after_tick (s : ModelledRadValveState) (v : Z) :
  (0 < filterLength K)%nat ->
  settled K inp s -> settled K inp (fst (tick K s v inp)).
Proof.
  intros HN Hs.
  pose proof (settled_stays_unfiltered K inp s Hs) as Hoff.
  destruct Hs as (_ & _ & Hlen & _).
  pose proof (settled_after_update K inp s HN Hlen Hoff) as (_ & _ & Hl & Hn & Hj).
  destruct (tick_filter_state K inp s v) as (Ei & Ef & Eh).
  unfold settled. rewrite Ei, Ef, Eh. cbn [tick_update prevRawTempC16] in Hl, Hn, Hj.
  auto.
Qed.

(** In a settled state the raw temperature has stopped changing. *)
Lemma settled_no_delta (s : ModelledRadValveState) :
  (2 <= filterLength K)%nat ->
  settled K inp s -> getRawDelta (tick_update K s inp) = 0.
Proof.
  intros HN (Hinit & _ & Hlen & Hnew & _).
  unfold getRawDelta. cbn [tick_update prevRawTempC16].
  rewrite tick_history_newest by lia.
  rewrite tick_history_older by (try assumption; lia).
  lia.
Qed.

Lemma settled_view (s s' : ModelledRadValveState) :
  settled K inp s -> settled K inp s' ->
  adjustedTempC K s inp = adjustedTempC K s' inp.
Proof.
  intros (_ & Hf & _) (_ & Hf' & _).
  apply (unfiltered_same_view K inp s s' Hf Hf').
Qed.

Lemma countdown_expired (c : Z) : c <= 1 -> (0 <? (if 0 <? c then c - 1 else c)) = false.
Proof.
  intros Hc. destruct (Z.ltb_spec 0 c); apply Z.ltb_ge; lia.
Qed.

Lemma steady_over_step (s : ModelledRadValveState) (v : Z) :
  (2 <= filterLength K)%nat ->
  input_ok inp ->
  settled K inp s ->
  valveTurnupCountdownM s <= 1 ->
  targetTempC inp < adjustedTempC K s inp ->
  0 <= v <= 255 ->
  TRV_SLEW_PC_PER_MIN_FAST <= maxPCOpen inp \/ v <= maxPCOpen inp ->
  valveTurnupCountdownM (fst (tick K s v inp)) <= 1 /\
  0 <= snd (tick K s v inp) /\
  (snd (tick K s v inp) < v \/ (v = 0 /\ snd (tick K s v inp) = 0)).
Proof.
  intros HN (H0 & H1 & H2) Hs Hc Hover Hv Hslip.
  pose proof (settled_stays_unfiltered K inp s Hs) as Hoff.
  pose proof (settled_no_delta s HN Hs) as Hdelta.
  assert (Hs1 : settled K inp (tick_update K s inp)).
  { destruct Hs as (_ & _ & Hlen & _). apply settled_after_update; [lia | assumption..]. }
  rewrite (settled_view s _ Hs Hs1) in Hover.
  assert (Hd : dontTurndown (tick_update K s inp) = false).
  { unfold dontTurndown. cbn [tick_update valveTurnupCountdownM]. apply countdown_expired. exact Hc. }
  assert (Hval : 0 <= snd (tick K s v inp) /\
                 (snd (tick K s v inp) < v \/ (v = 0 /\ snd (tick K s v inp) = 0))).
  { rewrite tick_valve, compute_over by assumption.
    unfold overTarget, constrain. rewrite Hd, Hdelta.
    decision_tree. }
  split; [|exact Hval].
  rewrite (tick_turnup_countdown K inp) by lia.
  cbn [tick_update valveTurnupCountdownM].
  destruct (Z.ltb_spec 0 (valveTurnupCountdownM s)); lia.
Qed.

(** X10 — A room that stays over target closes the valve.  From a settled
    state (not filtering, no jump in the memory, newest sample equal to the
    snapshot's temperature) with the turn-down cooldown about to expire and
    the snapshot's temperature over the target, repeating the tick with the
    same snapshot brings a percent [v] to 0 within [v] ticks, and keeps it
    there (stated for [maxPCOpen] not below the fast slew rate, or a percent
    not above [maxPCOpen]). *)
Theorem steady_over_target_closes_fully (n : nat) :
  (2 <= filterLength K)%nat ->
  input_ok inp ->
  forall (s : ModelledRadValveState) (v : Z),
  settled K inp s ->
  valveTurnupCountdownM s <= 1 ->
  targetTempC inp < adjustedTempC K s inp ->
  0 <= v <= 255 ->
  TRV_SLEW_PC_PER_MIN_FAST <= maxPCOpen inp \/ v <= maxPCOpen inp ->
  v <= Z.of_nat n ->
  snd (ticks K n s v inp) = 0.
Proof.
  intros HN Hok. induction n as [|n IH]; intros s v Hs Hc Hover Hv Hslip Hn.
  - cbn. lia.
  - cbn [ticks].
    pose proof (steady_over_step s v HN Hok Hs Hc Hover Hv Hslip) as (Hc' & Hv0 & Hv').
    pose proof (settled_after_tick s v ltac:(lia) Hs) as Hs'.
    pose proof (settled_view s _ Hs Hs') as Eview.
    destruct (tick K s v inp) as [s1 v1]. cbn [fst snd] in *.
    apply IH; try assumption; try lia.
    all: rewrite <- Eview; exact Hover.
Qed.

Lemma steady_under_step (s : ModelledRadValveState) (v : Z) :
  (2 <= filterLength K)%nat ->
  constants_ok K ->
  input_ok inp ->
  settled K inp s ->
  valveTurndownCountdownM s <= 1 ->
  adjustedTempC K s inp < targetTempC inp ->
  0 <= v <= maxPCOpen inp ->
  (if widenDeadband inp then TRV_SLEW_PC_PER_MIN_VFAST else TRV_MAX_SLEW_PC_PER_MIN)
    <= maxPCOpen inp ->
  valveTurndownCountdownM (fst (tick K s v inp)) <= 1 /\
  snd (tick K s v inp) <= maxPCOpen inp /\
  (v < snd (tick K s v inp) \/ (v = maxPCOpen inp /\ snd (tick K s v inp) = v)).
Proof.
  intros HN HK (H0 & H1 & H2) Hs Hc Hunder Hv Hslew.
  destruct HK as (HS & HM & _).
  pose proof (settled_stays_unfiltered K inp s Hs) as Hoff.
  pose proof (settled_no_delta s HN Hs) as Hdelta.
  assert (Hs1 : settled K inp (tick_update K s inp)).
  { destruct Hs as (_ & _ & Hlen & _). apply settled_after_update; [lia | assumption..]. }
  rewrite (settled_view s _ Hs Hs1) in Hunder.
  assert (Hu : dontTurnup (tick_update K s inp) = false).
  { unfold dontTurnup. cbn [tick_update valveTurndownCountdownM]. apply countdown_expired. exact Hc. }
  assert (Hval : snd (tick K s v inp) <= maxPCOpen inp /\
                 (v < snd (tick K s v inp) \/ (v = maxPCOpen inp /\ snd (tick K s v inp) = v))).
  { rewrite tick_valve, compute_under by assumption.
    unfold underTarget, windowOpenGuard. rewrite Hu, Hdelta.
    decision_tree. }
  split; [|exact Hval].
  rewrite (tick_turndown_countdown K inp) by lia.
  cbn [tick_update valveTurndownCountdownM].
  destruct (Z.ltb_spec 0 (valveTurndownCountdownM s)); lia.
Qed.

(** X11 — A room that stays under target opens the valve.  From a settled
    state with the turn-up cooldown about to expire and the snapshot's
    temperature under the target, for [maxPCOpen] not below the opening
    slew rate in force, repeating the tick with the same snapshot brings a
    percent [v <= maxPCOpen] to [maxPCOpen] within [maxPCOpen - v] ticks,
    and keeps it there. *)
Theorem steady_under_target_opens_fully (n : nat) :
  (2 <= filterLength K)%nat ->
  constants_ok K ->
  input_ok inp ->
  (if widenDeadband inp then TRV_SLEW_PC_PER_MIN_VFAST else TRV_MAX_SLEW_PC_PER_MIN)
    <= maxPCOpen inp ->
  forall (s : ModelledRadValveState) (v : Z),
  settled K inp s ->
  valveTurndownCountdownM s <= 1 ->
  adjustedTempC K s inp < targetTempC inp ->
  0 <= v <= maxPCOpen inp ->
  maxPCOpen inp - v <= Z.of_nat n ->
  snd (ticks K n s v inp) = maxPCOpen inp.
Proof.
  intros HN HK Hok Hslew. induction n as [|n IH]; intros s v Hs Hc Hunder Hv Hn.
  - cbn. lia.
  - cbn [ticks].
    pose proof (steady_under_step s v HN HK Hok Hs Hc Hunder Hv Hslew) as (Hc' & Hmax & Hv').
    pose proof (settled_after_tick s v ltac:(lia) Hs) as Hs'.
    pose proof (settled_view s _ Hs Hs') as Eview.
    destruct (tick K s v inp) as [s1 v1]. cbn [fst snd] in *.
    apply IH; try assumption; try lia.
Qed.
End Steady.

Lemma settled_example (t : Z) (inp : ModelledRadValveInputState) :
  refTempC16 inp - refTempOffsetC16 = t ->
  settled sampleK inp (runningState false 0 0 [t; t; t; t]).
Proof.
  intros Ht. unfold settled. cbn [runningState initialised isFiltering prevRawTempC16].
  repeat split; try reflexivity.
  - cbn. lia.
  - intros (i & Hi & Hj). cbn in Hi. unfold MAX_TEMP_JUMP_C16 in Hj.
    destruct i as [|[|[|i]]]; cbn in Hj; lia.
Qed.

(** A room steady at 22.0C with a target of 20C: a valve at 40% is shut
    after 40 ticks. *)
Lemma steady_over_target_closes_fully_witness :
  snd (ticks sampleK 40 (runningState false 0 0 [352; 352; 352; 352]) 40
         (snapshot 20 10 100 false false false false false 352)) = 0.
Proof.
  apply (steady_over_target_closes_fully sampleK
           (snapshot 20 10 100 false false false false false 352) 40).
  - cbn. lia.
  - unfold input_ok. cbn. lia.
  - apply settled_example. reflexivity.
  - cbn. lia.
  - vm_compute. reflexivity.
  - lia.
  - left. vm_compute. congruence.
  - lia.
Defined.

(** A room steady at 17.0C with a target of 20C and [maxPCOpen = 80]: a
    valve at 10% is at 80% after 70 ticks. *)
Lemma steady_under_target_opens_fully_witness :
  snd (ticks sampleK 70 (runningState false 0 0 [272; 272; 272; 272]) 10
         (snapshot 20 10 80 false false false false false 272)) = 80.
Proof.
  apply (steady_under_target_opens_fully sampleK
           (snapshot 20 10 80 false false false false false 272) 70).
  - cbn. lia.
  - unfold constants_ok. cbn. lia.
  - unfold input_ok. cbn. lia.
  - vm_compute. congruence.
  - apply settled_example. reflexivity.
  - cbn. lia.
  - vm_compute. reflexivity.
  - cbn. lia.
  - cbn. lia.
Defined.

(** ** The proportional target *)

(** Without filtering, the proportional target is 6% per 1/16C below the
    top of the target degree, kept within [minPCOpen, maxPCOpen]. *)
Lemma targetPO_unfiltered (K : Constants) (s : ModelledRadValveState)
    (inp : ModelledRadValveInputState) (t : Z) :
  isFiltering s = false -> input_ok inp ->
  targetPO K s (setReferenceTemperatures inp t) =
    Z.max (minPCOpen inp) (Z.min (maxPCOpen inp) (6 * (16 - (t + 8) mod 16))).
Proof.
  intros Hf (H0 & H1 & H2).
  unfold targetPO, lsbits, adjustedTempC16. rewrite Hf.
  cbn [refTempC16 minPCOpen maxPCOpen setReferenceTemperatures].
  unfold refTempOffsetC16, ulpStep.
  change 15 with (Z.ones 4). rewrite Z.land_ones by lia. change (2 ^ 4) with 16.
  pose proof (Z.mod_pos_bound (t + 8) 16 ltac:(lia)) as Hm.
  unfold constrain.
  u8_norm. case_ifs; bool_hyps; u8_norm; lia.
Qed.

(** X12 — The proportional target falls as the room warms.  Without
    filtering, for two real temperatures in the same band (the same whole
    degree of reference temperature), the warmer one has a proportional
    target that is not higher; both targets lie within
    [minPCOpen, maxPCOpen]. *)
Theorem proportional_target_falls_with_temperature (K : Constants)
    (s : ModelledRadValveState) (inp : ModelledRadValveInputState) (t1 t2 : Z) :
  isFiltering s = false ->
  input_ok inp ->
  t1 <= t2 ->
  (t1 + 8) / 16 = (t2 + 8) / 16 ->
  minPCOpen inp <= targetPO K s (setReferenceTemperatures inp t2) /\
  targetPO K s (setReferenceTemperatures inp t2)
    <= targetPO K s (setReferenceTemperatures inp t1) /\
  targetPO K s (setReferenceTemperatures inp t1) <= maxPCOpen inp.
Proof.
  intros Hf Hok Hle Hband.
  rewrite !targetPO_unfiltered by assumption.
  destruct Hok as (H0 & H1 & H2).
  pose proof (Z.div_mod (t1 + 8) 16 ltac:(lia)) as Hd1.
  pose proof (Z.div_mod (t2 + 8) 16 ltac:(lia)) as Hd2.
  lia.
Qed.

(** Target 20C: at 19.5C the proportional target is 96%, at 20.0C it is 48%. *)
Lemma proportional_target_falls_with_temperature_witness :
  targetPO sampleK (runningState false 0 0 [312; 312; 312; 312])
    (setReferenceTemperatures (snapshot 20 10 100 false false false false false 0) 320)
  <= targetPO sampleK (runningState false 0 0 [312; 312; 312; 312])
       (setReferenceTemperatures (snapshot 20 10 100 false false false false false 0) 312).
Proof.
  apply (proportional_target_falls_with_temperature sampleK
           (runningState false 0 0 [312; 312; 312; 312])
           (snapshot 20 10 100 false false false false false 0) 312 320).
  - reflexivity.
  - unfold input_ok. cbn. lia.
  - lia.
  - reflexivity.
Defined.

(** * The simple valve schedule *)

Lemma read_update_eq (ee : gmap Z Z) (p v : Z) :
  eeprom_read_byte (eeprom_smart_update_byte ee p v) p = v.
Proof. unfold eeprom_read_byte, eeprom_smart_update_byte. rewrite lookup_insert_eq. reflexivity. Qed.

Lemma read_update_ne (ee : gmap Z Z) (p q v : Z) :
  p <> q -> eeprom_read_byte (eeprom_smart_update_byte ee p v) q = eeprom_read_byte ee q.
Proof.
  intros H. unfold eeprom_read_byte, eeprom_smart_update_byte.
  rewrite lookup_insert_ne by exact H. reflexivity.
Qed.

Lemma read_erase_eq (ee : gmap Z Z) (p : Z) :
  eeprom_read_byte (eeprom_smart_erase_byte ee p) p = 255.
Proof. unfold eeprom_read_byte, eeprom_smart_erase_byte. rewrite lookup_insert_eq. reflexivity. Qed.

Lemma read_erase_ne (ee : gmap Z Z) (p q : Z) :
  p <> q -> eeprom_read_byte (eeprom_smart_erase_byte ee p) q = eeprom_read_byte ee q.
Proof.
  intros H. unfold eeprom_read_byte, eeprom_smart_erase_byte.
  rewrite lookup_insert_ne by exact H. reflexivity.
Qed.

Lemma read_byte_range (ee : gmap Z Z) (p : Z) :
  eeprom_ok ee -> 0 <= eeprom_read_byte ee p <= 255.
Proof.
  intros Hok. unfold eeprom_read_byte.
  destruct (ee !! p) as [b|] eqn:E; cbn; [exact (Hok p b E) | lia].
Qed.

Lemma NO_SCHEDULE_value : NO_SCHEDULE = 65535.
Proof. reflexivity. Qed.

Section ScheduleTimes.
Variable C : ScheduleConstants.
Hypothesis C_ok : schedule_ok C.

Lemma granularity_facts :
  let G := SIMPLE_SCHEDULE_GRANULARITY_MINS C in
  exists D : Z, MINS_PER_DAY = G * D /\ 6 <= D <= 240 /\
                MAX_COMPRESSED_MINS_AFTER_MIDNIGHT C = D - 1.
Proof.
  destruct C_ok as (_ & HG & Hdiv & _). cbv zeta.
  unfold MAX_COMPRESSED_MINS_AFTER_MIDNIGHT.
  set (G := SIMPLE_SCHEDULE_GRANULARITY_MINS C) in *.
  exists (MINS_PER_DAY / G).
  pose proof (Z.div_mod MINS_PER_DAY G ltac:(lia)) as Hdm.
  rewrite Hdiv, Z.add_0_r in Hdm.
  unfold MINS_PER_DAY in *.
  assert (6 <= 1440 / G <= 240) by nia.
  split; [exact Hdm|]. split; [assumption|].
  rewrite Z.quot_div_nonneg by lia. unfold u8. rewrite Z.mod_small; lia.
Qed.

(** The 'on' time that a stored byte stands for. *)
Lemma getSimpleScheduleOn_value (ee : gmap Z Z) (which : Z) :
  which < MAX_SIMPLE_SCHEDULES C ->
  0 <= eeprom_read_byte ee (V0P2BASE_EE_START_SIMPLE_SCHEDULE0_ON C + which)
    <= MAX_COMPRESSED_MINS_AFTER_MIDNIGHT C ->
  getSimpleScheduleOn C ee which =
    (SIMPLE_SCHEDULE_GRANULARITY_MINS C
       * eeprom_read_byte ee (V0P2BASE_EE_START_SIMPLE_SCHEDULE0_ON C + which)
     - PREWARM_MINS C) mod MINS_PER_DAY.
Proof.
  intros Hw Hb.
  destruct granularity_facts as (D & HD & HDr & HM).
  destruct C_ok as (_ & HG & _ & HP & _).
  unfold getSimpleScheduleOn.
  set (b := eeprom_read_byte ee _) in *.
  set (G := SIMPLE_SCHEDULE_GRANULARITY_MINS C) in *.
  destruct (Z.leb_spec (MAX_SIMPLE_SCHEDULES C) which); [lia|].
  destruct (Z.ltb_spec (MAX_COMPRESSED_MINS_AFTER_MIDNIGHT C) b); [lia|].
  cbv zeta. unfold MINS_PER_DAY in *.
  assert (0 <= G * b <= 1440 - G) by nia.
  u8_norm. u16_norm.
  destruct (Z.ltb_spec (G * b) (PREWARM_MINS C)); u16_norm.
  - apply Z.mod_unique with (q := -1); lia.
  - symmetry. apply Z.mod_small. lia.
Qed.

Lemma getSimpleScheduleOn_unset (ee : gmap Z Z) (which : Z) :
  MAX_SIMPLE_SCHEDULES C <= which \/
  MAX_COMPRESSED_MINS_AFTER_MIDNIGHT C
    < eeprom_read_byte ee (V0P2BASE_EE_START_SIMPLE_SCHEDULE0_ON C + which) ->
  getSimpleScheduleOn C ee which = NO_SCHEDULE.
Proof.
  intros H. unfold getSimpleScheduleOn.
  destruct (Z.leb_spec (MAX_SIMPLE_SCHEDULES C) which); [reflexivity|].
  destruct (Z.ltb_spec (MAX_COMPRESSED_MINS_AFTER_MIDNIGHT C)
              (eeprom_read_byte ee (V0P2BASE_EE_START_SIMPLE_SCHEDULE0_ON C + which)));
    [reflexivity | lia].
Qed.

(** Either way out of [getSimpleScheduleOn]. *)
Lemma getSimpleScheduleOn_cases (ee : gmap Z Z) (which : Z) :
  eeprom_ok ee ->
  (getSimpleScheduleOn C ee which = NO_SCHEDULE /\
   (MAX_SIMPLE_SCHEDULES C <= which \/
    MAX_COMPRESSED_MINS_AFTER_MIDNIGHT C
      < eeprom_read_byte ee (V0P2BASE_EE_START_SIMPLE_SCHEDULE0_ON C + which))) \/
  (0 <= getSimpleScheduleOn C ee which < MINS_PER_DAY /\
   which < MAX_SIMPLE_SCHEDULES C /\
   eeprom_read_byte ee (V0P2BASE_EE_START_SIMPLE_SCHEDULE0_ON C + which)
     <= MAX_COMPRESSED_MINS_AFTER_MIDNIGHT C).
Proof.
  intros Hee.
  pose proof (read_byte_range ee (V0P2BASE_EE_START_SIMPLE_SCHEDULE0_ON C + which) Hee) as Hb.
  destruct (Z.leb_spec (MAX_SIMPLE_SCHEDULES C) which) as [Hw|Hw].
  - left. split; [apply getSimpleScheduleOn_unset|]; left; exact Hw.
  - destruct (Z.ltb_spec (MAX_COMPRESSED_MINS_AFTER_MIDNIGHT C)
                (eeprom_read_byte ee (V0P2BASE_EE_START_SIMPLE_SCHEDULE0_ON C + which)))
      as [Hx|Hx].
    + left. split; [apply getSimpleScheduleOn_unset|]; right; exact Hx.
    + right. rewrite getSimpleScheduleOn_value by lia.
      split; [apply Z.mod_pos_bound; unfold MINS_PER_DAY; lia | lia].
Qed.

Lemma getSimpleScheduleOff_value (ee : gmap Z Z) (which : Z) :
  0 <= getSimpleScheduleOn C ee which < MINS_PER_DAY ->
  getSimpleScheduleOff C ee which =
    (getSimpleScheduleOn C ee which + PREWARM_MINS C + onTime C) mod MINS_PER_DAY.
Proof.
  intros Hs. destruct C_ok as (_ & _ & _ & HP & _ & HO).
  unfold getSimpleScheduleOff. cbv zeta.
  set (s := getSimpleScheduleOn C ee which) in *.
  unfold MINS_PER_DAY in *.
  destruct (Z.eqb_spec s NO_SCHEDULE) as [E|_]; [rewrite NO_SCHEDULE_value in E; lia|].
  u16_norm.
  destruct (Z.leb_spec 1440 (s + PREWARM_MINS C + onTime C)); u16_norm.
  - apply Z.mod_unique with (q := 1); lia.
  - symmetry. apply Z.mod_small. lia.
Qed.

Lemma getSimpleScheduleOff_unset (ee : gmap Z Z) (which : Z) :
  getSimpleScheduleOn C ee which = NO_SCHEDULE ->
  getSimpleScheduleOff C ee which = NO_SCHEDULE.
Proof. intros H. unfold getSimpleScheduleOff. rewrite H. reflexivity. Qed.

(** X13 — Schedule times are minutes of the day, or the marker.  Whatever
    bytes the EEPROM holds and whatever the schedule number, the on and off
    times are either both the "no schedule" marker or both within
    [0, 1439]. *)
Theorem schedule_times_valid_or_unset (ee : gmap Z Z) (which : Z) :
  eeprom_ok ee ->
  (getSimpleScheduleOn C ee which = NO_SCHEDULE /\
   getSimpleScheduleOff C ee which = NO_SCHEDULE) \/
  (0 <= getSimpleScheduleOn C ee which < MINS_PER_DAY /\
   0 <= getSimpleScheduleOff C ee which < MINS_PER_DAY).
Proof.
  intros Hee.
  destruct (getSimpleScheduleOn_cases ee which Hee) as [[Hs _]|[Hs _]].
  - left. split; [exact Hs | apply getSimpleScheduleOff_unset; exact Hs].
  - right. split; [exact Hs|].
    rewrite getSimpleScheduleOff_value by exact Hs.
    apply Z.mod_pos_bound. unfold MINS_PER_DAY. lia.
Qed.

Lemma compressed_start_fits (t : Z) :
  0 <= t < MINS_PER_DAY ->
  u8 (t `quot` SIMPLE_SCHEDULE_GRANULARITY_MINS C)
    = t / SIMPLE_SCHEDULE_GRANULARITY_MINS C /\
  0 <= t / SIMPLE_SCHEDULE_GRANULARITY_MINS C <= MAX_COMPRESSED_MINS_AFTER_MIDNIGHT C.
Proof.
  intros Ht.
  destruct granularity_facts as (D & HD & HDr & HM).
  destruct C_ok as (_ & HG & _).
  set (G := SIMPLE_SCHEDULE_GRANULARITY_MINS C) in *.
  rewrite Z.quot_div_nonneg by lia.
  assert (0 <= t / G < D).
  { split; [apply Z.div_pos; lia | apply Z.div_lt_upper_bound; lia]. }
  split; [unfold u8; apply Z.mod_small; lia | lia].
Qed.

(** X14 — Setting a schedule and reading it back.  For a valid schedule
    number and a start time within the day, [setSimpleSchedule] succeeds;
    afterwards the on time is the start time rounded down to the
    granularity and wound back by the pre-warm time, and the off time is the
    rounded start time plus the on-period, both modulo the day. *)
Theorem schedule_set_then_get (ee : gmap Z Z) (t which : Z) :
  0 <= which < MAX_SIMPLE_SCHEDULES C ->
  0 <= t < MINS_PER_DAY ->
  fst (setSimpleSchedule C ee t which) = true /\
  getSimpleScheduleOn C (snd (setSimpleSchedule C ee t which)) which =
    (SIMPLE_SCHEDULE_GRANULARITY_MINS C * (t / SIMPLE_SCHEDULE_GRANULARITY_MINS C)
     - PREWARM_MINS C) mod MINS_PER_DAY /\
  getSimpleScheduleOff C (snd (setSimpleSchedule C ee t which)) which =
    (SIMPLE_SCHEDULE_GRANULARITY_MINS C * (t / SIMPLE_SCHEDULE_GRANULARITY_MINS C)
     + onTime C) mod MINS_PER_DAY.
Proof.
  intros Hw Ht.
  destruct (compressed_start_fits t Ht) as (Eu & Hfit).
  unfold setSimpleSchedule.
  destruct (Z.leb_spec (MAX_SIMPLE_SCHEDULES C) which); [lia|].
  destruct (Z.leb_spec MINS_PER_DAY t); [lia|].
  cbn [fst snd]. split; [reflexivity|].
  rewrite Eu.
  assert (Eon : getSimpleScheduleOn C
            (eeprom_smart_update_byte ee (V0P2BASE_EE_START_SIMPLE_SCHEDULE0_ON C + which)
               (t / SIMPLE_SCHEDULE_GRANULARITY_MINS C)) which
          = (SIMPLE_SCHEDULE_GRANULARITY_MINS C * (t / SIMPLE_SCHEDULE_GRANULARITY_MINS C)
             - PREWARM_MINS C) mod MINS_PER_DAY).
  { rewrite getSimpleScheduleOn_value by (rewrite ?read_update_eq; lia).
    rewrite read_update_eq. reflexivity. }
  split; [exact Eon|].
  rewrite getSimpleScheduleOff_value
    by (rewrite Eon; apply Z.mod_pos_bound; unfold MINS_PER_DAY; lia).
  rewrite Eon.
  rewrite <- Z.add_assoc, Z.add_mod_idemp_l by (unfold MINS_PER_DAY; lia).
  f_equal. lia.
Qed.

(** X15 — Clearing a schedule.  After [clearSimpleSchedule] of a valid
    schedule number, both the on time and the off time of that schedule are
    the "no schedule" marker. *)
Theorem schedule_clear_then_get (ee : gmap Z Z) (which : Z) :
  which < MAX_SIMPLE_SCHEDULES C ->
  getSimpleScheduleOn C (clearSimpleSchedule C ee which) which = NO_SCHEDULE /\
  getSimpleScheduleOff C (clearSimpleSchedule C ee which) which = NO_SCHEDULE.
Proof.
  intros Hw.
  destruct granularity_facts as (D & HD & HDr & HM).
  assert (E : getSimpleScheduleOn C (clearSimpleSchedule C ee which) which = NO_SCHEDULE).
  { apply getSimpleScheduleOn_unset. right.
    unfold clearSimpleSchedule.
    destruct (Z.leb_spec (MAX_SIMPLE_SCHEDULES C) which); [lia|].
    rewrite read_erase_eq. lia. }
  split; [exact E | apply getSimpleScheduleOff_unset; exact E].
Qed.
End ScheduleTimes.

(** X16 — Schedules are independent.  Setting or clearing one schedule
    leaves the on and off times of every other schedule number as they
    were. *)
Theorem schedule_slots_independent (C : ScheduleConstants) (ee : gmap Z Z)
    (t which other : Z) :
  other <> which ->
  getSimpleScheduleOn C (snd (setSimpleSchedule C ee t which)) other
    = getSimpleScheduleOn C ee other /\
  getSimpleScheduleOff C (snd (setSimpleSchedule C ee t which)) other
    = getSimpleScheduleOff C ee other /\
  getSimpleScheduleOn C (clearSimpleSchedule C ee which) other
    = getSimpleScheduleOn C ee other /\
  getSimpleScheduleOff C (clearSimpleSchedule C ee which) other
    = getSimpleScheduleOff C ee other.
Proof.
  intros Hne.
  assert (Hset : getSimpleScheduleOn C (snd (setSimpleSchedule C ee t which)) other
                 = getSimpleScheduleOn C ee other).
  { unfold setSimpleSchedule.
    destruct (_ <=? _); [reflexivity|]. destruct (_ <=? _); [reflexivity|].
    cbn [snd]. unfold getSimpleScheduleOn. rewrite read_update_ne by lia. reflexivity. }
  assert (Hclr : getSimpleScheduleOn C (clearSimpleSchedule C ee which) other
                 = getSimpleScheduleOn C ee other).
  { unfold clearSimpleSchedule.
    destruct (_ <=? _); [reflexivity|].
    unfold getSimpleScheduleOn. rewrite read_erase_ne by lia. reflexivity. }
  unfold getSimpleScheduleOff. rewrite Hset, Hclr. auto.
Qed.


Section Loops.
Variable C : ScheduleConstants.

Lemma anySet_loop_true (ee : gmap Z Z) (n : nat) (w : Z) :
  anySet_loop C ee n w = true <->
  exists k : nat, (k < n)%nat /\
    eeprom_read_byte ee (V0P2BASE_EE_START_SIMPLE_SCHEDULE0_ON C + (w + Z.of_nat k))
      <= MAX_COMPRESSED_MINS_AFTER_MIDNIGHT C.
Proof.
  revert w. induction n as [|n IH]; intros w; cbn [anySet_loop].
  - split; [discriminate|]. intros (k & Hk & _). lia.
  - destruct (Z.leb_spec
                (eeprom_read_byte ee (V0P2BASE_EE_START_SIMPLE_SCHEDULE0_ON C + w))
                (MAX_COMPRESSED_MINS_AFTER_MIDNIGHT C)) as [Hle|Hgt].
    + split; [intros _|reflexivity].
      exists 0%nat. split; [lia|]. rewrite Z.add_0_r. exact Hle.
    + rewrite IH. split.
      * intros (k & Hk & Hr). exists (S k). split; [lia|].
        replace (w + Z.of_nat (S k)) with (w + 1 + Z.of_nat k) by lia. exact Hr.
      * intros (k & Hk & Hr). destruct k as [|k].
        -- rewrite Z.add_0_r in Hr. lia.
        -- exists k. split; [lia|].
           replace (w + 1 + Z.of_nat k) with (w + Z.of_nat (S k)) by lia. exact Hr.
Qed.

Lemma anyOn_loop_true (ee : gmap Z Z) (mm : Z) (n : nat) (w : Z) :
  anyOn_loop C ee mm n w = true <->
  exists k : nat, (k < n)%nat /\ scheduleOnAt C ee mm (w + Z.of_nat k) = true.
Proof.
  revert w. induction n as [|n IH]; intros w; cbn [anyOn_loop].
  - split; [discriminate|]. intros (k & Hk & _). lia.
  - assert (Hstep : (exists k : nat, (k < S n)%nat /\ scheduleOnAt C ee mm (w + Z.of_nat k) = true) <->
                    scheduleOnAt C ee mm w = true \/
                    (exists k : nat, (k < n)%nat /\ scheduleOnAt C ee mm (w + 1 + Z.of_nat k) = true)).
    { split.
      - intros (k & Hk & Hr). destruct k as [|k].
        + left. rewrite Z.add_0_r in Hr. exact Hr.
        + right. exists k. split; [lia|].
          replace (w + 1 + Z.of_nat k) with (w + Z.of_nat (S k)) by lia. exact Hr.
      - intros [Hr|(k & Hk & Hr)].
        + exists 0%nat. split; [lia|]. rewrite Z.add_0_r. exact Hr.
        + exists (S k). split; [lia|].
          replace (w + Z.of_nat (S k)) with (w + 1 + Z.of_nat k) by lia. exact Hr. }
    rewrite Hstep, <- IH. unfold scheduleOnAt. cbv zeta.
    destruct (mm <? getSimpleScheduleOn C ee w); cbn [negb andb].
    + split; [intros H; right; exact H | intros [H|H]; [discriminate | exact H]].
    + destruct (mm <? _).
      * split; [intros _; left; reflexivity | reflexivity].
      * split; [intros H; right; exact H | intros [H|H]; [discriminate | exact H]].
Qed.

Hypothesis C_ok : schedule_ok C.

Lemma which_of_index (k : nat) :
  (k < Z.to_nat (MAX_SIMPLE_SCHEDULES C))%nat -> 0 <= 0 + Z.of_nat k < MAX_SIMPLE_SCHEDULES C.
Proof. lia. Qed.

Lemma anySet_iff (ee : gmap Z Z) :
  eeprom_ok ee ->
  isAnySimpleScheduleSet C ee = true <->
  exists which : Z, 0 <= which < MAX_SIMPLE_SCHEDULES C /\
    getSimpleScheduleOn C ee which <> NO_SCHEDULE.
Proof.
  intros Hee. unfold isAnySimpleScheduleSet. rewrite anySet_loop_true. split.
  - intros (k & Hk & Hr). exists (0 + Z.of_nat k). split; [lia|].
    destruct (getSimpleScheduleOn_cases C C_ok ee (0 + Z.of_nat k) Hee)
      as [[_ [H|H]]|[H _]]; [lia | lia |].
    rewrite NO_SCHEDULE_value. unfold MINS_PER_DAY in H. lia.
  - intros (which & Hw & Hset). exists (Z.to_nat which). split; [lia|].
    rewrite Z2Nat.id by lia. cbn [Z.add].
    destruct (getSimpleScheduleOn_cases C C_ok ee which Hee)
      as [[H _]|[_ [_ H]]]; [contradiction | exact H].
Qed.
(** X17 — [isAnySimpleScheduleSet] is true exactly when some schedule
    number below [MAX_SIMPLE_SCHEDULES] has a valid on time. *)
Theorem any_schedule_set_iff (ee : gmap Z Z) :
  eeprom_ok ee ->
  isAnySimpleScheduleSet C ee = true <->
  exists which : Z, 0 <= which < MAX_SIMPLE_SCHEDULES C /\
    getSimpleScheduleOn C ee which <> NO_SCHEDULE.
Proof. exact (anySet_iff ee). Qed.

End Loops.

Section Warm.
Variable C : ScheduleConstants.
Hypothesis C_ok : schedule_ok C.

Lemma scheduleOnAt_iff (ee : gmap Z Z) (mm which : Z) :
  eeprom_ok ee ->
  0 <= mm < MINS_PER_DAY ->
  scheduleOnAt C ee mm which = true <->
  getSimpleScheduleOn C ee which <> NO_SCHEDULE /\
  getSimpleScheduleOn C ee which <= mm /\
  (mm < getSimpleScheduleOff C ee which \/
   getSimpleScheduleOff C ee which < getSimpleScheduleOn C ee which).
Proof.
  intros Hee Hmm. unfold scheduleOnAt. cbv zeta.
  destruct (getSimpleScheduleOn_cases C C_ok ee which Hee) as [[Hs _]|[Hs _]].
  - rewrite (getSimpleScheduleOff_unset C ee which Hs), Hs, NO_SCHEDULE_value.
    unfold MINS_PER_DAY in Hmm.
    destruct (Z.ltb_spec mm 65535); [|lia]. cbn [negb andb].
    split; [discriminate | intros (H' & _); congruence].
  - rewrite (getSimpleScheduleOff_value C C_ok ee which Hs).
    set (s := getSimpleScheduleOn C ee which) in *.
    pose proof (Z.mod_pos_bound (s + PREWARM_MINS C + onTime C) MINS_PER_DAY
                  ltac:(unfold MINS_PER_DAY; lia)) as He.
    set (e := (s + PREWARM_MINS C + onTime C) mod MINS_PER_DAY) in *.
    rewrite NO_SCHEDULE_value. unfold MINS_PER_DAY in *.
    destruct (Z.ltb_spec mm s); cbn [negb andb].
    + split; [discriminate | lia].
    + destruct (Z.ltb_spec e s); u16_norm.
      * destruct (Z.ltb_spec mm (e + 1440)); [|lia]. split; [lia | reflexivity].
      * destruct (Z.ltb_spec mm e); split; try lia; try reflexivity; try discriminate.
Qed.

Lemma anyOn_iff (ee : gmap Z Z) (mm : Z) :
  eeprom_ok ee ->
  0 <= mm < MINS_PER_DAY ->
  anyOn_loop C ee mm (Z.to_nat (MAX_SIMPLE_SCHEDULES C)) 0 = true <->
  exists which : Z, 0 <= which < MAX_SIMPLE_SCHEDULES C /\
    getSimpleScheduleOn C ee which <> NO_SCHEDULE /\
    getSimpleScheduleOn C ee which <= mm /\
    (mm < getSimpleScheduleOff C ee which \/
     getSimpleScheduleOff C ee which < getSimpleScheduleOn C ee which).
Proof.
  intros Hee Hmm. rewrite anyOn_loop_true. split.
  - intros (k & Hk & Hon). exists (0 + Z.of_nat k). split; [lia|].
    apply scheduleOnAt_iff; assumption.
  - intros (which & Hw & Hon). exists (Z.to_nat which). split; [lia|].
    rewrite Z2Nat.id by lia. cbn [Z.add]. apply scheduleOnAt_iff; assumption.
Qed.

Lemma look_ahead_in_day (t : Z) :
  0 <= t < MINS_PER_DAY ->
  let mm0 := u16 (t + PREPREWARM_MINS C) in
  0 <= (if MINS_PER_DAY <=? mm0 then u16 (mm0 - MINS_PER_DAY) else mm0) < MINS_PER_DAY.
Proof.
  intros Ht. destruct C_ok as (_ & _ & _ & _ & HPP & _). cbv zeta.
  unfold MINS_PER_DAY in *. u16_norm.
  destruct (Z.leb_spec 1440 (t + PREPREWARM_MINS C)); u16_norm; lia.
Qed.

(** X18 — When a schedule counts as on.  At minute [mm] of the day,
    [isAnyScheduleOnWARMNow] is true exactly when some set schedule has its
    on time at or before [mm] and either its off time after [mm], or its off
    time before its on time (a period running past midnight). *)
Theorem warm_now_iff (ee : gmap Z Z) (mm : Z) :
  eeprom_ok ee ->
  0 <= mm < MINS_PER_DAY ->
  isAnyScheduleOnWARMNow C ee mm = true <->
  exists which : Z, 0 <= which < MAX_SIMPLE_SCHEDULES C /\
    getSimpleScheduleOn C ee which <> NO_SCHEDULE /\
    getSimpleScheduleOn C ee which <= mm /\
    (mm < getSimpleScheduleOff C ee which \/
     getSimpleScheduleOff C ee which < getSimpleScheduleOn C ee which).
Proof. intros Hee Hmm. unfold isAnyScheduleOnWARMNow. apply anyOn_iff; assumption. Qed.

(** X19 — No schedule, no warm period.  When [isAnySimpleScheduleSet] is
    false, neither [isAnyScheduleOnWARMNow] nor [isAnyScheduleOnWARMSoon]
    is true at any minute of the day. *)
Theorem no_schedule_never_warm (ee : gmap Z Z) (t : Z) :
  eeprom_ok ee ->
  0 <= t < MINS_PER_DAY ->
  isAnySimpleScheduleSet C ee = false ->
  isAnyScheduleOnWARMNow C ee t = false /\ isAnyScheduleOnWARMSoon C ee t = false.
Proof.
  intros Hee Ht Hnone.
  assert (Hno : forall mm, 0 <= mm < MINS_PER_DAY ->
            anyOn_loop C ee mm (Z.to_nat (MAX_SIMPLE_SCHEDULES C)) 0 = false).
  { intros mm Hmm.
    destruct (anyOn_loop C ee mm (Z.to_nat (MAX_SIMPLE_SCHEDULES C)) 0) eqn:E; [|reflexivity].
    apply anyOn_iff in E; [|assumption..].
    destruct E as (which & Hw & Hset & _).
    assert (isAnySimpleScheduleSet C ee = true)
      by (apply anySet_iff; [assumption..|exists which; auto]).
    congruence. }
  split.
  - apply Hno. exact Ht.
  - unfold isAnyScheduleOnWARMSoon. apply Hno. apply look_ahead_in_day. exact Ht.
Qed.

(** X20 — A period running past midnight.  When the only schedule set has
    its off time before its on time, [isAnyScheduleOnWARMNow] is true from
    the on time up to midnight, and false at every earlier minute of the
    day, the minutes between midnight and the off time included. *)
Theorem schedule_past_midnight (ee : gmap Z Z) (which mm : Z) :
  eeprom_ok ee ->
  0 <= which < MAX_SIMPLE_SCHEDULES C ->
  getSimpleScheduleOn C ee which <> NO_SCHEDULE ->
  getSimpleScheduleOff C ee which < getSimpleScheduleOn C ee which ->
  (forall other : Z, other <> which -> getSimpleScheduleOn C ee other = NO_SCHEDULE) ->
  0 <= mm < MINS_PER_DAY ->
  isAnyScheduleOnWARMNow C ee mm = true <-> getSimpleScheduleOn C ee which <= mm.
Proof.
  intros Hee Hw Hset Hwrap Hothers Hmm.
  unfold isAnyScheduleOnWARMNow. rewrite anyOn_iff by assumption. split.
  - intros (w & _ & Hs & Hle & _).
    destruct (Z.eq_dec w which) as [->|Hne]; [exact Hle|].
    rewrite (Hothers w Hne) in Hs. contradiction.
  - intros Hle. exists which. auto.
Qed.
End Warm.

(** ** Instances of the schedule properties *)

Lemma sampleSchedule_ok : schedule_ok sampleSchedule.
Proof. repeat split; vm_compute; congruence. Qed.

Lemma eeprom_ok_empty : eeprom_ok ∅.
Proof. intros p b H. rewrite lookup_empty in H. discriminate. Qed.

Lemma eeprom_ok_update (ee : gmap Z Z) (p v : Z) :
  eeprom_ok ee -> 0 <= v <= 255 -> eeprom_ok (eeprom_smart_update_byte ee p v).
Proof.
  intros Hee Hv q b. unfold eeprom_smart_update_byte.
  destruct (Z.eq_dec p q) as [->|Hne].
  - rewrite lookup_insert_eq. intros [= <-]. exact Hv.
  - rewrite lookup_insert_ne by exact Hne. apply Hee.
Qed.

(** [setSimpleSchedule] only ever stores a byte. *)
Lemma eeprom_ok_set (C : ScheduleConstants) (ee : gmap Z Z) (t which : Z) :
  eeprom_ok ee -> eeprom_ok (snd (setSimpleSchedule C ee t which)).
Proof.
  intros Hee. unfold setSimpleSchedule.
  destruct (_ <=? _); [exact Hee|]. destruct (_ <=? _); [exact Hee|].
  cbn [snd]. apply eeprom_ok_update; [exact Hee|].
  pose proof (u8_range (t `quot` SIMPLE_SCHEDULE_GRANULARITY_MINS C)). lia.
Qed.

(** An erased EEPROM holds no schedule. *)
Lemma getSimpleScheduleOn_erased (C : ScheduleConstants) (which : Z) :
  schedule_ok C -> getSimpleScheduleOn C ∅ which = NO_SCHEDULE.
Proof.
  intros HC. destruct (granularity_facts C HC) as (D & _ & HD & HM).
  unfold getSimpleScheduleOn.
  destruct (_ <=? _); [reflexivity|].
  unfold eeprom_read_byte. rewrite lookup_empty. cbn [default].
  destruct (Z.ltb_spec (MAX_COMPRESSED_MINS_AFTER_MIDNIGHT C) 255); [reflexivity | lia].
Qed.

(** Schedule 0 programmed for 23:50 on an erased EEPROM: on at 23:18, off at
    00:48. *)
Lemma schedule_times_valid_or_unset_witness :
  0 <= getSimpleScheduleOn sampleSchedule
         (snd (setSimpleSchedule sampleSchedule ∅ 1430 0)) 0 < MINS_PER_DAY /\
  0 <= getSimpleScheduleOff sampleSchedule
         (snd (setSimpleSchedule sampleSchedule ∅ 1430 0)) 0 < MINS_PER_DAY.
Proof.
  destruct (schedule_times_valid_or_unset sampleSchedule sampleSchedule_ok
              (snd (setSimpleSchedule sampleSchedule ∅ 1430 0)) 0
              (eeprom_ok_set _ _ _ _ eeprom_ok_empty)) as [[H _]|H].
  - vm_compute in H. discriminate H.
  - exact H.
Defined.

(** Schedule 0 programmed for 07:00: on at 06:30, off at 08:00. *)
Lemma schedule_set_then_get_witness :
  fst (setSimpleSchedule sampleSchedule ∅ 420 0) = true /\
  getSimpleScheduleOn sampleSchedule
    (snd (setSimpleSchedule sampleSchedule ∅ 420 0)) 0 = 390 /\
  getSimpleScheduleOff sampleSchedule
    (snd (setSimpleSchedule sampleSchedule ∅ 420 0)) 0 = 480.
Proof.
  exact (schedule_set_then_get sampleSchedule sampleSchedule_ok ∅ 420 0
           ltac:(cbn; lia) ltac:(unfold MINS_PER_DAY; lia)).
Defined.

Lemma schedule_clear_then_get_witness :
  getSimpleScheduleOn sampleSchedule
    (clearSimpleSchedule sampleSchedule
       (snd (setSimpleSchedule sampleSchedule ∅ 420 0)) 0) 0 = NO_SCHEDULE /\
  getSimpleScheduleOff sampleSchedule
    (clearSimpleSchedule sampleSchedule
       (snd (setSimpleSchedule sampleSchedule ∅ 420 0)) 0) 0 = NO_SCHEDULE.
Proof.
  apply (schedule_clear_then_get sampleSchedule sampleSchedule_ok
           (snd (setSimpleSchedule sampleSchedule ∅ 420 0)) 0).
  cbn. lia.
Defined.

(** Programming schedule 1 leaves schedule 0 on at 06:30. *)
Lemma schedule_slots_independent_witness :
  getSimpleScheduleOn sampleSchedule
    (snd (setSimpleSchedule sampleSchedule
            (snd (setSimpleSchedule sampleSchedule ∅ 420 0)) 1020 1)) 0
  = getSimpleScheduleOn sampleSchedule
      (snd (setSimpleSchedule sampleSchedule ∅ 420 0)) 0.
Proof.
  apply (schedule_slots_independent sampleSchedule
           (snd (setSimpleSchedule sampleSchedule ∅ 420 0)) 1020 1 0).
  lia.
Defined.

Lemma any_schedule_set_iff_witness :
  isAnySimpleScheduleSet sampleSchedule
    (snd (setSimpleSchedule sampleSchedule ∅ 420 1)) = true.
Proof.
  apply (any_schedule_set_iff sampleSchedule sampleSchedule_ok
           (snd (setSimpleSchedule sampleSchedule ∅ 420 1))
           (eeprom_ok_set _ _ _ _ eeprom_ok_empty)).
  exists 1. split; [cbn; lia|]. vm_compute. discriminate.
Defined.

(** With schedule 0 on from 06:30 to 08:00, 07:15 is within a warm period. *)
Lemma warm_now_iff_witness :
  isAnyScheduleOnWARMNow sampleSchedule
    (snd (setSimpleSchedule sampleSchedule ∅ 420 0)) 435 = true.
Proof.
  apply (warm_now_iff sampleSchedule sampleSchedule_ok
           (snd (setSimpleSchedule sampleSchedule ∅ 420 0)) 435
           (eeprom_ok_set _ _ _ _ eeprom_ok_empty)).
  - unfold MINS_PER_DAY. lia.
  - exists 0. split; [cbn; lia|].
    split; [vm_compute; discriminate|].
    split; [vm_compute; congruence|].
    left. vm_compute. reflexivity.
Defined.

Lemma no_schedule_never_warm_witness :
  isAnyScheduleOnWARMNow sampleSchedule ∅ 600 = false /\
  isAnyScheduleOnWARMSoon sampleSchedule ∅ 600 = false.
Proof.
  apply (no_schedule_never_warm sampleSchedule sampleSchedule_ok ∅ 600 eeprom_ok_empty).
  - unfold MINS_PER_DAY. lia.
  - vm_compute. reflexivity.
Defined.

(** Schedule 0 programmed for 23:50 is on from 23:18 and off at 00:48: it
    counts as on at 23:30 and does not at 00:10. *)
Lemma schedule_past_midnight_witness :
  isAnyScheduleOnWARMNow sampleSchedule
    (snd (setSimpleSchedule sampleSchedule ∅ 1430 0)) 1410 = true /\
  isAnyScheduleOnWARMNow sampleSchedule
    (snd (setSimpleSchedule sampleSchedule ∅ 1430 0)) 10 <> true.
Proof.
  assert (Hothers : forall other : Z, other <> 0 ->
            getSimpleScheduleOn sampleSchedule
              (snd (setSimpleSchedule sampleSchedule ∅ 1430 0)) other = NO_SCHEDULE).
  { intros other Hne.
    change (snd (setSimpleSchedule sampleSchedule ∅ 1430 0))
      with (eeprom_smart_update_byte ∅ 8 238).
    unfold getSimpleScheduleOn.
    rewrite read_update_ne by (cbn; lia).
    change (eeprom_read_byte ∅ (V0P2BASE_EE_START_SIMPLE_SCHEDULE0_ON sampleSchedule + other))
      with 255.
    destruct (_ <=? _); reflexivity. }
  pose proof (fun mm Hmm =>
    schedule_past_midnight sampleSchedule sampleSchedule_ok
      (snd (setSimpleSchedule sampleSchedule ∅ 1430 0)) 0 mm
      (eeprom_ok_set _ _ _ _ eeprom_ok_empty)
      ltac:(cbn; lia) ltac:(vm_compute; discriminate) ltac:(vm_compute; reflexivity)
      Hothers Hmm) as Hiff.
  split.
  - apply (Hiff 1410); [unfold MINS_PER_DAY; lia | vm_compute; congruence].
  - intros Hon. apply (Hiff 10) in Hon; [|unfold MINS_PER_DAY; lia].
    vm_compute in Hon. apply Hon. reflexivity.
Defined.

(** * The proportional band: no overshoot, no hunting *)

Section Band.

Variable K : Constants.

(** X21 — No overshoot in the proportional band.  With the temperature used
    for control at the target and bake mode off, the percent after the tick
    lies between the current percent and the proportional target: the valve
    moves towards the target or not at all, and never past it. *)
Theorem at_target_moves_toward_target (s : ModelledRadValveState) (v : Z)
    (inp : ModelledRadValveInputState) :
  input_ok inp ->
  0 <= v <= 255 ->
  adjustedTempC K (tick_update K s inp) inp = targetTempC inp ->
  inBakeMode inp = false ->
  Z.min v (targetPO K (tick_update K s inp) inp) <= snd (tick K s v inp) /\
  snd (tick K s v inp) <= Z.max v (targetPO K (tick_update K s inp) inp).
Proof.
  intros Hok Hv Hat Hb.
  rewrite tick_valve, compute_at by assumption.
  pose proof (targetPO_range K (tick_update K s inp) inp Hok) as Hpo.
  destruct Hok as (H0 & H1 & H2).
  unfold atTarget. rewrite Hb.
  generalize dependent (targetPO K (tick_update K s inp) inp). intros tp Hpo.
  decision_tree.
Qed.

(** X22 — Deadband.  With the temperature used for control at the target
    and bake mode off, a percent that differs from the proportional target
    by less than [TRV_MIN_SLEW_PC] is left alone: the tick records no
    movement. *)
Theorem deadband_holds (s : ModelledRadValveState) (v : Z)
    (inp : ModelledRadValveInputState) :
  input_ok inp ->
  0 <= v <= 255 ->
  adjustedTempC K (tick_update K s inp) inp = targetTempC inp ->
  inBakeMode inp = false ->
  Z.abs (targetPO K (tick_update K s inp) inp - v) < TRV_MIN_SLEW_PC ->
  tick K s v inp = (setValveMoved (tick_update K s inp) false, v).
Proof.
  intros Hok Hv Hat Hb Hnear.
  apply tick_hold. rewrite compute_at by assumption.
  pose proof (targetPO_range K (tick_update K s inp) inp Hok) as Hpo.
  destruct Hok as (H0 & H1 & H2).
  unfold atTarget, minAbsSlew. rewrite Hb.
  unfold TRV_MIN_SLEW_PC, ulpStep in *.
  generalize dependent (targetPO K (tick_update K s inp) inp). intros tp ? ?.
  change (u8 (1 + 6)) with 7.
  match goal with |- context [Z.max 7 ?x] => generalize x; intros slack end.
  destruct (Z.eqb_spec tp v); cbn [negb]; [reflexivity|].
  destruct (Z.ltb_spec tp v).
  - rewrite (u8_small (v - tp)) by lia.
    destruct (Z.ltb_spec (v - tp) (Z.max 7 slack)); [reflexivity | lia].
  - rewrite (u8_small (tp - v)) by lia.
    destruct (Z.ltb_spec (tp - v) (Z.max 7 slack)); [reflexivity | lia].
Qed.

End Band.

(** Reference temperature 20.75C, target 20C: the proportional target is
    24%; a valve at 60% with a rising temperature closes, but not below
    24%. *)
Lemma at_target_moves_toward_target_witness :
  24 <= snd (tick sampleK (runningState false 0 0 [323; 322; 321; 320]) 60
               (snapshot 20 10 100 false false false false false 324)) <= 60.
Proof.
  apply (at_target_moves_toward_target sampleK
           (runningState false 0 0 [323; 322; 321; 320]) 60
           (snapshot 20 10 100 false false false false false 324)).
  - unfold input_ok. cbn. lia.
  - lia.
  - vm_compute. reflexivity.
  - reflexivity.
Defined.

(** The same room with the valve at 28%: four percent from the target, it
    stays where it is. *)
Lemma deadband_holds_witness :
  snd (tick sampleK (runningState false 0 0 [323; 322; 321; 320]) 28
         (snapshot 20 10 100 false false false false false 324)) = 28.
Proof.
  rewrite (deadband_holds sampleK (runningState false 0 0 [323; 322; 321; 320]) 28
             (snapshot 20 10 100 false false false false false 324)).
  - reflexivity.
  - unfold input_ok. cbn. lia.
  - lia.
  - vm_compute. reflexivity.
  - reflexivity.
  - vm_compute. reflexivity.
Defined.
